(** * Virtual try-on server: QR sessions, customer sessions and try-on

    A shallow embedding of [server/storage.ts] (the [DatabaseStorage]
    repository over the SQL tables) and of the route handlers of
    [server/routes.ts] that the session lifecycle goes through.

    Conventions of the model:
    - a SQL table is a list of rows; [db.select().where(p)] is [filter p],
      and the destructuring [const [row] = ...] is the head of that list;
      [update ... where id = x] maps over the rows; [insert ... returning]
      appends the row;
    - primary keys are generated by the database: the model draws them from
      the counter [next_id] of the database state;
    - a [Date] is its millisecond timestamp, a [Z];
    - a handler returns a [Reply]: the JSON body of a 2xx answer, or the
      status code and [message] of an error answer. *)

From Stdlib Require Import Ascii String List ZArith Bool Arith Lia.
Import ListNotations.
Open Scope string_scope.

Definition Id := nat.

(** ** Rows of the tables (shared/schema) *)

Module User.
Record t := mk {
  id : Id;
  email : string;
  password : string;            (* bcrypt hash *)
  role : string;                (* "company_owner" | "store_manager" *)
  storeId : option Id;
  mustResetPassword : bool;
  isActive : bool
}.
End User.

Module Store.
Record t := mk {
  id : Id;
  name : string;
  description : option string;
  isActive : bool
}.
End Store.

Module ClothingItem.
Record t := mk {
  id : Id;
  storeId : Id;
  name : string;
  category : string;
  barcode : option string;
  imageUrl : string;
  isAvailable : bool;
  tryOnCount : nat
}.
End ClothingItem.

Module QrSession.
Record t := mk {
  id : Id;
  storeId : Id;
  token : string;
  expiresAt : Z
}.
End QrSession.

Module CustomerSession.
Record t := mk {
  id : Id;
  qrSessionId : Id;
  storeId : Id;
  expiresAt : Z;
  photoUrl : option string
}.
End CustomerSession.

Module TryOnHistory.
Record t := mk {
  id : Id;
  customerSessionId : Id;
  clothingItemId : Id;
  resultImageUrl : string
}.
End TryOnHistory.

(** The [metadata] column holds [JSON.stringify] of a flat object; the
    model keeps the object's fields. *)
Inductive MetaValue := MId (i : Id) | MStr (s : string) | MBool (b : bool).

Module UsageLog.
Record t := mk {
  id : Id;
  storeId : Id;
  action : string;
  metadata : list (string * MetaValue)
}.
End UsageLog.

(** ** The database *)

Record DB := mkDB {
  users : list User.t;
  stores : list Store.t;
  clothingItems : list ClothingItem.t;
  qrSessions : list QrSession.t;
  customerSessions : list CustomerSession.t;
  tryOnHistory : list TryOnHistory.t;
  usageLogs : list UsageLog.t;
  next_id : nat
}.

Definition set_users (f : list User.t -> list User.t) (d : DB) : DB :=
  mkDB (f (users d)) (stores d) (clothingItems d) (qrSessions d)
       (customerSessions d) (tryOnHistory d) (usageLogs d) (next_id d).
Definition set_clothingItems (f : list ClothingItem.t -> list ClothingItem.t) (d : DB) : DB :=
  mkDB (users d) (stores d) (f (clothingItems d)) (qrSessions d)
       (customerSessions d) (tryOnHistory d) (usageLogs d) (next_id d).
Definition set_qrSessions (f : list QrSession.t -> list QrSession.t) (d : DB) : DB :=
  mkDB (users d) (stores d) (clothingItems d) (f (qrSessions d))
       (customerSessions d) (tryOnHistory d) (usageLogs d) (next_id d).
Definition set_customerSessions (f : list CustomerSession.t -> list CustomerSession.t) (d : DB) : DB :=
  mkDB (users d) (stores d) (clothingItems d) (qrSessions d)
       (f (customerSessions d)) (tryOnHistory d) (usageLogs d) (next_id d).
Definition set_tryOnHistory (f : list TryOnHistory.t -> list TryOnHistory.t) (d : DB) : DB :=
  mkDB (users d) (stores d) (clothingItems d) (qrSessions d)
       (customerSessions d) (f (tryOnHistory d)) (usageLogs d) (next_id d).
Definition set_usageLogs (f : list UsageLog.t -> list UsageLog.t) (d : DB) : DB :=
  mkDB (users d) (stores d) (clothingItems d) (qrSessions d)
       (customerSessions d) (tryOnHistory d) (f (usageLogs d)) (next_id d).

(** A fresh primary key, and the database with the counter advanced. *)
Definition fresh (d : DB) : Id * DB :=
  (next_id d,
   mkDB (users d) (stores d) (clothingItems d) (qrSessions d)
        (customerSessions d) (tryOnHistory d) (usageLogs d) (S (next_id d))).

(** ** DatabaseStorage (server/storage.ts) *)

Definition first {A} (l : list A) : option A :=
  match l with [] => None | x :: _ => Some x end.

Definition getUser (d : DB) (id : Id) : option User.t :=
  first (filter (fun u => Nat.eqb (User.id u) id) (users d)).

Definition getUserByEmail (d : DB) (email : string) : option User.t :=
  first (filter (fun u => String.eqb (User.email u) email) (users d)).

Definition updateUserPassword (d : DB) (id : Id) (password : string)
    (mustResetPassword : bool) : DB :=
  set_users (map (fun u =>
    if Nat.eqb (User.id u) id
    then User.mk (User.id u) (User.email u) password (User.role u)
                 (User.storeId u) mustResetPassword (User.isActive u)
    else u)) d.

Definition getStore (d : DB) (id : Id) : option Store.t :=
  first (filter (fun s => Nat.eqb (Store.id s) id) (stores d)).

Definition getClothingItem (d : DB) (id : Id) : option ClothingItem.t :=
  first (filter (fun i => Nat.eqb (ClothingItem.id i) id) (clothingItems d)).

(** [set({ tryOnCount: sql`tryOnCount + 1` })]: an increment done by the
    database on every row with that id. *)
Definition bumpTryOnCount (i : ClothingItem.t) : ClothingItem.t :=
  ClothingItem.mk (ClothingItem.id i) (ClothingItem.storeId i)
    (ClothingItem.name i) (ClothingItem.category i)
    (ClothingItem.barcode i) (ClothingItem.imageUrl i)
    (ClothingItem.isAvailable i) (S (ClothingItem.tryOnCount i)).

Definition incrementTryOnCount (d : DB) (id : Id) : DB :=
  set_clothingItems (map (fun i =>
    if Nat.eqb (ClothingItem.id i) id then bumpTryOnCount i else i)) d.

(** [where(and(eq(token, token), gt(expiresAt, new Date())))]. *)
Definition getQrSessionByToken (d : DB) (now : Z) (token : string)
    : option QrSession.t :=
  first (filter (fun q => String.eqb (QrSession.token q) token
                          && Z.ltb now (QrSession.expiresAt q))
                (qrSessions d)).

Definition createQrSession (d : DB) (storeId : Id) (token : string)
    (expiresAt : Z) : QrSession.t * DB :=
  let (id, d1) := fresh d in
  let q := QrSession.mk id storeId token expiresAt in
  (q, set_qrSessions (fun l => app l [q]) d1).

Definition getCustomerSession (d : DB) (id : Id) : option CustomerSession.t :=
  first (filter (fun s => Nat.eqb (CustomerSession.id s) id)
                (customerSessions d)).

Definition createCustomerSession (d : DB) (qrSessionId storeId : Id)
    (expiresAt : Z) : CustomerSession.t * DB :=
  let (id, d1) := fresh d in
  let s := CustomerSession.mk id qrSessionId storeId expiresAt None in
  (s, set_customerSessions (fun l => app l [s]) d1).

Definition setPhotoUrl (photoUrl : string) (s : CustomerSession.t) : CustomerSession.t :=
  CustomerSession.mk (CustomerSession.id s) (CustomerSession.qrSessionId s)
    (CustomerSession.storeId s) (CustomerSession.expiresAt s) (Some photoUrl).

(** [updateCustomerSession(id, { photoUrl })]. *)
Definition updateCustomerSessionPhoto (d : DB) (id : Id) (photoUrl : string) : DB :=
  set_customerSessions (map (fun s =>
    if Nat.eqb (CustomerSession.id s) id then setPhotoUrl photoUrl s else s)) d.

Definition createTryOnHistory (d : DB) (customerSessionId clothingItemId : Id)
    (resultImageUrl : string) : DB :=
  let (id, d1) := fresh d in
  set_tryOnHistory (fun l => app l
    [TryOnHistory.mk id customerSessionId clothingItemId resultImageUrl]) d1.

Definition createUsageLog (d : DB) (storeId : Id) (action : string)
    (metadata : list (string * MetaValue)) : DB :=
  let (id, d1) := fresh d in
  set_usageLogs (fun l => app l [UsageLog.mk id storeId action metadata]) d1.

(** ** Route handlers (server/routes.ts) *)

(** The answer of a handler: [res.json(body)] or
    [res.status(code).json({ message })]. *)
Inductive Reply (A : Type) :=
| Json (body : A)
| Status (code : nat) (message : string).
Arguments Json {A} body.
Arguments Status {A} code message.

(** JavaScript truthiness of an optional string field ([!x] is true for
    [undefined], [null] and [""]). *)
Definition truthy (o : option string) : bool :=
  match o with Some s => negb (String.eqb s "") | None => false end.

(** The payload of a signed bearer token ([jwt.sign(claims, secret,
    { expiresIn: "24h" })]).  jsonwebtoken stamps [iat] as the current
    time in whole seconds, [Math.floor(Date.now() / 1000)], and sets [exp]
    to [iat] plus the 86400 seconds of "24h"; [exp] is in seconds. *)
Module Jwt.
Record t := mk {
  id : Id;
  email : string;
  role : string;
  storeId : option Id;
  exp : Z
}.
End Jwt.

Module LoginView.
Record t := mk {
  token : Jwt.t;
  id : Id;
  email : string;
  role : string;
  storeId : option Id;
  storeName : option string;
  mustResetPassword : bool
}.
End LoginView.

Module QrView.
Record t := mk { token : string; expiresAt : Z }.
End QrView.

Module ValidateView.
Record t := mk {
  sessionId : Id;
  storeId : Id;
  storeName : string;
  expiresAt : Z
}.
End ValidateView.

Module TryOnView.
Record t := mk { resultImageUrl : string; message : option string }.
End TryOnView.

Definition HOUR_MS : Z := 60 * 60 * 1000.
Definition DAY_S : Z := 24 * 60 * 60.

(** [Math.floor(ms / 1000)]: a timestamp in whole seconds. *)
Definition unix_seconds (ms : Z) : Z := Z.div ms 1000.

Section Handlers.

(** [bcrypt.compare(password, hash)] and [bcrypt.hash(password, 10)]. *)
Variable bcrypt_compare : string -> string -> bool.
Variable bcrypt_hash : string -> string.
(** [generateTryOnImage(userPhotoPath, clothingImagePath, outputPath)] of
    server/gemini: the result path, or [None] when the call throws. *)
Variable generateTryOnImage : string -> string -> string -> option string.

(** POST /api/auth/login.  [parsed] is the outcome of
    [loginSchema.safeParse(req.body)]: the email and password, or [None]. *)
Definition login (d : DB) (now : Z) (parsed : option (string * string))
    : Reply LoginView.t :=
  match parsed with
  | None => Status 400 "Invalid input"
  | Some (email, password) =>
      match getUserByEmail d email with
      | None => Status 401 "Invalid credentials"
      | Some user =>
          if negb (User.isActive user) then Status 401 "Invalid credentials"
          else if negb (bcrypt_compare password (User.password user))
          then Status 401 "Invalid credentials"
          else
            let storeName :=
              match User.storeId user with
              | Some sid => option_map Store.name (getStore d sid)
              | None => None
              end in
            let token := Jwt.mk (User.id user) (User.email user) (User.role user)
                                (User.storeId user) (unix_seconds now + DAY_S) in
            Json (LoginView.mk token (User.id user) (User.email user)
                    (User.role user) (User.storeId user) storeName
                    (User.mustResetPassword user))
      end
  end.

(** POST /api/auth/reset-password, for the authenticated user [uid];
    [parsed] is the outcome of [resetPasswordSchema.safeParse(req.body)]. *)
Definition resetOwnPassword (d : DB) (uid : Id)
    (parsed : option (string * string)) : Reply string * DB :=
  match parsed with
  | None => (Status 400 "Invalid input", d)
  | Some (currentPassword, newPassword) =>
      match getUser d uid with
      | None => (Status 404 "User not found", d)
      | Some user =>
          if negb (bcrypt_compare currentPassword (User.password user))
          then (Status 401 "Current password is incorrect", d)
          else
            let hashedPassword := bcrypt_hash newPassword in
            (Json "Password updated successfully",
             updateUserPassword d (User.id user) hashedPassword false)
      end
  end.

(** POST /api/stores/:id/reset-password (owner only); [tempPassword] is
    [generateTempPassword()].  The handler returns the answer
    [{ tempPassword, message }]. *)
Definition resetStoreManagerPassword (d : DB) (storeId : Id)
    (tempPassword : string) : Reply (string * string) * DB :=
  match getStore d storeId with
  | None => (Status 404 "Store not found", d)
  | Some _ =>
      let hashedPassword := bcrypt_hash tempPassword in
      (Json (tempPassword, "Password reset successfully"), d)
  end.

(** POST /api/store/qr/generate (manager only); [storeId] is
    [req.user.storeId] and [token] is [randomBytes(32).toString("hex")].
    The QR image ([QRCode.toDataURL]) is not modelled. *)
Definition generateQr (d : DB) (now : Z) (storeId : option Id) (token : string)
    : Reply QrView.t * DB :=
  match storeId with
  | None => (Status 400 "No store associated with this account", d)
  | Some sid =>
      let expiresAt := (now + HOUR_MS)%Z in
      let (qrSession, d1) := createQrSession d sid token expiresAt in
      let d2 := createUsageLog d1 sid "qr_generated"
                  [("sessionId", MId (QrSession.id qrSession))] in
      (Json (QrView.mk token expiresAt), d2)
  end.

(** GET /api/qr/:token/validate. *)
Definition validateQr (d : DB) (now : Z) (token : string)
    : Reply ValidateView.t * DB :=
  match getQrSessionByToken d now token with
  | None => (Status 404 "Invalid or expired session", d)
  | Some qrSession =>
      match getStore d (QrSession.storeId qrSession) with
      | Some store =>
          if Store.isActive store then
            let (customerSession, d1) :=
              createCustomerSession d (QrSession.id qrSession)
                (QrSession.storeId qrSession) (QrSession.expiresAt qrSession) in
            let d2 := createUsageLog d1 (QrSession.storeId qrSession)
                        "session_created"
                        [("customerSessionId", MId (CustomerSession.id customerSession))] in
            (Json (ValidateView.mk (CustomerSession.id customerSession)
                     (Store.id store) (Store.name store)
                     (QrSession.expiresAt qrSession)), d2)
          else (Status 404 "Store not available", d)
      | None => (Status 404 "Store not available", d)
      end
  end.

(** POST /api/customer/upload-photo.  [sessionId] is [req.body.sessionId]
    ([None] when absent or empty) and [file] the name multer gave the
    uploaded file ([None] when no file was sent). *)
Definition uploadPhoto (d : DB) (now : Z) (sessionId : option Id)
    (file : option string) : Reply string * DB :=
  match sessionId with
  | None => (Status 400 "Session ID required", d)
  | Some sid =>
      match getCustomerSession d sid with
      | None => (Status 401 "Session expired", d)
      | Some session =>
          if Z.ltb (CustomerSession.expiresAt session) now
          then (Status 401 "Session expired", d)
          else
            match file with
            | None => (Status 400 "No photo uploaded", d)
            | Some filename =>
                let photoUrl := "/uploads/customers/" ++ filename in
                (Json photoUrl, updateCustomerSessionPhoto d sid photoUrl)
            end
      end
  end.

(** POST /api/tryon.  [geminiKey] is [process.env.GEMINI_API_KEY] and
    [outputFilename] the name built from [Date.now()] and [Math.random()].
    A throwing [generateTryOnImage] lands in the [catch] (status 500)
    before any write. *)
Definition tryOn (d : DB) (now : Z) (sessionId clothingItemId : option Id)
    (geminiKey : option string) (outputFilename : string)
    : Reply TryOnView.t * DB :=
  match sessionId, clothingItemId with
  | Some sid, Some cid =>
      match getCustomerSession d sid with
      | None => (Status 401 "Session expired", d)
      | Some session =>
          if Z.ltb (CustomerSession.expiresAt session) now
          then (Status 401 "Session expired", d)
          else if negb (truthy (CustomerSession.photoUrl session))
          then (Status 400 "Please upload a photo first", d)
          else
            match getClothingItem d cid with
            | None => (Status 404 "Clothing item not found", d)
            | Some clothingItem =>
                if negb (Nat.eqb (ClothingItem.storeId clothingItem)
                                 (CustomerSession.storeId session))
                then (Status 404 "Clothing item not found", d)
                else if negb (truthy geminiKey) then
                  let mockResultUrl := ClothingItem.imageUrl clothingItem in
                  let d1 := createTryOnHistory d (CustomerSession.id session)
                              (ClothingItem.id clothingItem) mockResultUrl in
                  let d2 := incrementTryOnCount d1 (ClothingItem.id clothingItem) in
                  let d3 := createUsageLog d2 (CustomerSession.storeId session) "try_on"
                              [("clothingItemId", MId cid);
                               ("customerSessionId", MId (CustomerSession.id session));
                               ("mock", MBool true)] in
                  (Json (TryOnView.mk mockResultUrl
                           (Some "Demo mode - Gemini API key not configured")), d3)
                else
                  let photo := match CustomerSession.photoUrl session with
                               | Some p => p | None => "" end in
                  let userPhotoPath := "." ++ photo in
                  let clothingImagePath := "." ++ ClothingItem.imageUrl clothingItem in
                  let outputPath := "./uploads/results/" ++ outputFilename in
                  match generateTryOnImage userPhotoPath clothingImagePath outputPath with
                  | None => (Status 500 "Failed to generate try-on image", d)
                  | Some _ =>
                      let resultImageUrl := "/uploads/results/" ++ outputFilename in
                      let d1 := createTryOnHistory d (CustomerSession.id session)
                                  (ClothingItem.id clothingItem) resultImageUrl in
                      let d2 := incrementTryOnCount d1 (ClothingItem.id clothingItem) in
                      let d3 := createUsageLog d2 (CustomerSession.storeId session) "try_on"
                                  [("clothingItemId", MId cid);
                                   ("customerSessionId", MId (CustomerSession.id session))] in
                      (Json (TryOnView.mk resultImageUrl None), d3)
                  end
            end
      end
  | _, _ => (Status 400 "Session ID and clothing item ID required", d)
  end.

End Handlers.

(** ** More of DatabaseStorage (server/storage.ts) *)

Definition set_stores (f : list Store.t -> list Store.t) (d : DB) : DB :=
  mkDB (users d) (f (stores d)) (clothingItems d) (qrSessions d)
       (customerSessions d) (tryOnHistory d) (usageLogs d) (next_id d).

(** The values of the [category] column, an enum of shared/schema (not
    part of this tree), as the manager dashboard lists them in
    [clothingCategories : ClothingCategory[]]. *)
Definition clothingCategories : list string :=
  ["shirts"; "pants"; "jackets"; "dresses"; "skirts"; "accessories"; "shoes";
   "other"].

Definition is_category (c : string) : bool :=
  existsb (String.eqb c) clothingCategories.

(** The items of a store, newest first.  [orderBy(desc(createdAt))]: rows
    are appended in creation order, so the newest-first order is the
    reverse of the table. *)
Definition storeItems (d : DB) (storeId : Id) : list ClothingItem.t :=
  rev (filter (fun i => Nat.eqb (ClothingItem.storeId i) storeId)
              (clothingItems d)).

(** [getClothingItemsByStore(storeId, category?)]: the category filter only
    when [category] is truthy.  The filter compares the enum column with
    [category as any], so a value outside the enum makes Postgres reject the
    query ([None]: the promise rejects). *)
Definition getClothingItemsByStore (d : DB) (storeId : Id) (category : option string)
    : option (list ClothingItem.t) :=
  match category with
  | Some c =>
      if negb (String.eqb c "")
      then if is_category c
           then Some (rev (filter (fun i => Nat.eqb (ClothingItem.storeId i) storeId
                                            && String.eqb (ClothingItem.category i) c)
                                  (clothingItems d)))
           else None
      else Some (storeItems d storeId)
  | None => Some (storeItems d storeId)
  end.

(** A category query the listing accepts: absent, empty, or a value of the
    enum. *)
Definition category_filter_ok (category : option string) : bool :=
  match category with
  | Some c => String.eqb c "" || is_category c
  | None => true
  end.

(** [eq(barcode, barcode)] never holds on a NULL barcode. *)
Definition getClothingItemByBarcode (d : DB) (storeId : Id) (barcode : string)
    : option ClothingItem.t :=
  first (filter (fun i => Nat.eqb (ClothingItem.storeId i) storeId
                          && match ClothingItem.barcode i with
                             | Some b => String.eqb b barcode
                             | None => false
                             end)
                (clothingItems d)).

(** [updateClothingItem(id, data)], [data] given as the row update it
    performs; the [updatedAt] column is not part of the model.  Answers the
    first updated row. *)
Definition updateClothingItem (d : DB) (id : Id)
    (f : ClothingItem.t -> ClothingItem.t) : option ClothingItem.t * DB :=
  let d1 := set_clothingItems (map (fun i =>
              if Nat.eqb (ClothingItem.id i) id then f i else i)) d in
  (getClothingItem d1 id, d1).

Definition deleteClothingItem (d : DB) (id : Id) : DB :=
  set_clothingItems (filter (fun i => negb (Nat.eqb (ClothingItem.id i) id))) d.

Definition setAvailable (b : bool) (i : ClothingItem.t) : ClothingItem.t :=
  ClothingItem.mk (ClothingItem.id i) (ClothingItem.storeId i)
    (ClothingItem.name i) (ClothingItem.category i) (ClothingItem.barcode i)
    (ClothingItem.imageUrl i) b (ClothingItem.tryOnCount i).

Definition setStoreActive (b : bool) (s : Store.t) : Store.t :=
  Store.mk (Store.id s) (Store.name s) (Store.description s) b.

(** [updateStore(id, { isActive })]; answers the first updated row. *)
Definition updateStoreActive (d : DB) (id : Id) (b : bool) : option Store.t * DB :=
  let d1 := set_stores (map (fun s =>
              if Nat.eqb (Store.id s) id then setStoreActive b s else s)) d in
  (getStore d1 id, d1).

Definition createStore (d : DB) (name : string) (description : option string)
    (isActive : bool) : Store.t * DB :=
  let (id, d1) := fresh d in
  let s := Store.mk id name description isActive in
  (s, set_stores (fun l => app l [s]) d1).

Definition createUser (d : DB) (email password role : string) (storeId : option Id)
    (mustResetPassword isActive : bool) : User.t * DB :=
  let (id, d1) := fresh d in
  let u := User.mk id email password role storeId mustResetPassword isActive in
  (u, set_users (fun l => app l [u]) d1).

Definition createClothingItem (d : DB) (storeId : Id) (name category : string)
    (barcode : option string) (imageUrl : string) (isAvailable : bool)
    (tryOnCount : nat) : ClothingItem.t * DB :=
  let (id, d1) := fresh d in
  let i := ClothingItem.mk id storeId name category barcode imageUrl isAvailable
             tryOnCount in
  (i, set_clothingItems (fun l => app l [i]) d1).

Fixpoint sum_tryOnCount (l : list ClothingItem.t) : nat :=
  match l with
  | [] => 0
  | i :: l => ClothingItem.tryOnCount i + sum_tryOnCount l
  end.

Module StoreStats.
Record t := mk {
  clothingCount : nat;
  availableCount : nat;
  tryOnCount : nat;
  sessionCount : nat
}.
End StoreStats.

(** [getStoreStats(storeId)]: four aggregate queries ([count()] and
    [COALESCE(SUM(tryOnCount), 0)]). *)
Definition getStoreStats (d : DB) (storeId : Id) : StoreStats.t :=
  let items := filter (fun i => Nat.eqb (ClothingItem.storeId i) storeId)
                      (clothingItems d) in
  StoreStats.mk (length items)
    (length (filter (fun i => ClothingItem.isAvailable i) items))
    (sum_tryOnCount items)
    (length (filter (fun s => Nat.eqb (CustomerSession.storeId s) storeId)
                    (customerSessions d))).

Module GlobalStats.
Record t := mk {
  totalStores : nat;
  totalApiCalls : nat;
  totalSessions : nat;
  totalClothingItems : nat
}.
End GlobalStats.

Definition getGlobalStats (d : DB) : GlobalStats.t :=
  GlobalStats.mk (length (stores d))
    (length (filter (fun l => String.eqb (UsageLog.action l) "try_on") (usageLogs d)))
    (length (customerSessions d))
    (length (clothingItems d)).

(** ** More route handlers (server/routes.ts) *)

(** [authHeader.split(" ")]: JavaScript's split on a one-character
    separator, empty pieces kept. *)
Fixpoint js_split_space (s : string) : list string :=
  match s with
  | EmptyString => [""]
  | String c rest =>
      let parts := js_split_space rest in
      if Ascii.eqb c " "%char then "" :: parts
      else match parts with
           | p :: ps => String c p :: ps
           | [] => [String c ""]
           end
  end.

Section Auth.

(** [jwt.verify(token, JWT_SECRET)] at the current time: the decoded
    payload, or [None] when it throws (bad signature, expired, malformed). *)
Variable verify : string -> option Jwt.t.

(** [authMiddleware]: [Json] carries the [req.user] it sets before [next()]. *)
Definition authMiddleware (authorization : option string) : Reply Jwt.t :=
  match authorization with
  | None => Status 401 "Unauthorized"
  | Some h =>
      if negb (String.prefix "Bearer " h) then Status 401 "Unauthorized"
      else match nth_error (js_split_space h) 1 with
           | None => Status 401 "Invalid token"
           | Some token =>
               match verify token with
               | None => Status 401 "Invalid token"
               | Some decoded => Json decoded
               end
           end
  end.

(** [ownerOnlyMiddleware] / [managerOnlyMiddleware] after [authMiddleware]. *)
Definition roleGate (role : string) (authorization : option string) : Reply Jwt.t :=
  match authMiddleware authorization with
  | Json user => if String.eqb (Jwt.role user) role then Json user
                 else Status 403 "Access denied"
  | Status c m => Status c m
  end.

End Auth.

(** The column defaults of the schema (shared/schema, not in the
    repository's sources) that the inserts below rely on. *)
Section StoreRoutes.

Variable bcrypt_hash : string -> string.
Variable store_isActive_default : bool.
Variable user_isActive_default : bool.
Variable tryOnCount_default : nat.

(** [storeDescription || null]. *)
Definition or_null (o : option string) : option string :=
  if truthy o then o else None.

(** POST /api/stores (owner only).  [ownerEmail] is [req.user.email],
    [parsed] the outcome of [createStoreManagerSchema.safeParse(req.body)]
    and [tempPassword] is [generateTempPassword()]. *)
Definition createStoreManager (d : DB) (ownerEmail : string)
    (parsed : option (string * string * option string)) (tempPassword : string)
    : Reply (Store.t * string) * DB :=
  match parsed with
  | None => (Status 400 "Invalid input", d)
  | Some (email, storeName, storeDescription) =>
      match getUserByEmail d email with
      | Some _ => (Status 400 "Email already registered", d)
      | None =>
          let (store, d1) := createStore d storeName (or_null storeDescription)
                               store_isActive_default in
          let hashedPassword := bcrypt_hash tempPassword in
          let (_, d2) := createUser d1 email hashedPassword "store_manager"
                           (Some (Store.id store)) true user_isActive_default in
          let d3 := createUsageLog d2 (Store.id store) "store_created"
                      [("createdBy", MStr ownerEmail)] in
          (Json (store, tempPassword), d3)
      end
  end.

(** PATCH /api/stores/:id/toggle-status (owner only). *)
Definition toggleStoreStatus (d : DB) (id : Id) : Reply (option Store.t) * DB :=
  match getStore d id with
  | None => (Status 404 "Store not found", d)
  | Some store =>
      let (updated, d1) := updateStoreActive d (Store.id store)
                             (negb (Store.isActive store)) in
      (Json updated, d1)
  end.

(** GET /api/store/stats (manager only); [storeId] is [req.user?.storeId]. *)
Definition storeStatsRoute (d : DB) (storeId : option Id) : Reply StoreStats.t :=
  match storeId with
  | None => Status 400 "No store associated with this account"
  | Some sid => Json (getStoreStats d sid)
  end.

(** GET /api/store/items (manager only). *)
Definition managerItems (d : DB) (storeId : option Id) (category : option string)
    : Reply (list ClothingItem.t) :=
  match storeId with
  | None => Status 400 "No store associated with this account"
  | Some sid =>
      match getClothingItemsByStore d sid category with
      | Some items => Json items
      | None => Status 500 "Failed to get items"
      end
  end.

(** A field of [req.body]: a string from a multipart form, or a JSON
    boolean when the body was sent as JSON. *)
Inductive FieldValue :=
| FStr (s : string)
| FBool (b : bool).

(** [isAvailable === "true" || isAvailable === true]. *)
Definition parseAvailable (v : option FieldValue) : bool :=
  match v with
  | Some (FStr s) => String.eqb s "true"
  | Some (FBool b) => b
  | None => false
  end.

(** POST /api/store/items (manager only); [file] is the name multer gave
    the uploaded image. *)
Definition createItem (d : DB) (storeId : option Id) (name category : option string)
    (barcode : option string) (isAvailable : option FieldValue) (file : option string)
    : Reply ClothingItem.t * DB :=
  match storeId with
  | None => (Status 400 "No store associated with this account", d)
  | Some sid =>
      let imageUrl := match file with
                      | Some f => "/uploads/clothing/" ++ f
                      | None => ""
                      end in
      (* the insert is rejected, and the handler answers 500, when the NOT
         NULL columns [name] or [category] are missing or [category] is not
         a value of the enum *)
      match name, category with
      | Some n, Some c =>
          if negb (is_category c) then (Status 500 "Failed to create item", d)
          else
            let (item, d1) := createClothingItem d sid n c (or_null barcode)
                                imageUrl (parseAvailable isAvailable)
                                tryOnCount_default in
            let d2 := createUsageLog d1 sid "clothing_upload"
                        [("itemId", MId (ClothingItem.id item)); ("name", MStr n)] in
            (Json item, d2)
      | _, _ => (Status 500 "Failed to create item", d)
      end
  end.

(** The row update built by PATCH /api/store/items/:id. *)
Definition itemUpdate (name category barcode : option string)
    (isAvailable : option FieldValue) (file : option string)
    (i : ClothingItem.t) : ClothingItem.t :=
  ClothingItem.mk (ClothingItem.id i) (ClothingItem.storeId i)
    (match name with Some n => if truthy name then n else ClothingItem.name i
                | None => ClothingItem.name i end)
    (match category with Some c => if truthy category then c else ClothingItem.category i
                    | None => ClothingItem.category i end)
    (match barcode with Some _ => or_null barcode | None => ClothingItem.barcode i end)
    (match file with Some f => "/uploads/clothing/" ++ f | None => ClothingItem.imageUrl i end)
    (match isAvailable with Some _ => parseAvailable isAvailable
                       | None => ClothingItem.isAvailable i end)
    (ClothingItem.tryOnCount i).

(** The guard shared by the three item routes below:
    [if (!item || item.storeId !== req.user?.storeId) 404]. *)
Definition ownItem (d : DB) (storeId : option Id) (id : Id) : option ClothingItem.t :=
  match getClothingItem d id with
  | Some item =>
      match storeId with
      | Some sid => if Nat.eqb (ClothingItem.storeId item) sid then Some item else None
      | None => None
      end
  | None => None
  end.

(** PATCH /api/store/items/:id (manager only). *)
Definition updateItem (d : DB) (storeId : option Id) (id : Id)
    (name category barcode : option string) (isAvailable : option FieldValue)
    (file : option string) : Reply (option ClothingItem.t) * DB :=
  match ownItem d storeId id with
  | None => (Status 404 "Item not found", d)
  | Some item =>
      (* a truthy [category] outside the enum makes the update rejected *)
      if truthy category && negb (category_filter_ok category)
      then (Status 500 "Failed to update item", d)
      else
        let (updated, d1) := updateClothingItem d (ClothingItem.id item)
                               (itemUpdate name category barcode isAvailable file) in
        (Json updated, d1)
  end.

(** DELETE /api/store/items/:id (manager only). *)
Definition deleteItem (d : DB) (storeId : option Id) (id : Id) : Reply string * DB :=
  match ownItem d storeId id with
  | None => (Status 404 "Item not found", d)
  | Some item => (Json "Item deleted", deleteClothingItem d (ClothingItem.id item))
  end.

(** PATCH /api/store/items/:id/toggle-availability (manager only). *)
Definition toggleAvailability (d : DB) (storeId : option Id) (id : Id)
    : Reply (option ClothingItem.t) * DB :=
  match ownItem d storeId id with
  | None => (Status 404 "Item not found", d)
  | Some item =>
      let (updated, d1) := updateClothingItem d (ClothingItem.id item)
                             (setAvailable (negb (ClothingItem.isAvailable item))) in
      (Json updated, d1)
  end.

(** GET /api/customer/clothes; [storeId] is [req.query.storeId]. *)
Definition customerClothes (d : DB) (storeId : option Id) (category : option string)
    : Reply (list ClothingItem.t) :=
  match storeId with
  | None => Status 400 "Store ID required"
  | Some sid =>
      match getClothingItemsByStore d sid category with
      | Some items => Json (filter (fun i => ClothingItem.isAvailable i) items)
      | None => Status 500 "Failed to get clothes"
      end
  end.

(** POST /api/customer/scan-barcode. *)
Definition scanBarcode (d : DB) (storeId : option Id) (barcode : option string)
    : Reply ClothingItem.t :=
  match storeId, barcode with
  | Some sid, Some b =>
      if String.eqb b "" then Status 400 "Store ID and barcode required"
      else match getClothingItemByBarcode d sid b with
           | None => Status 404 "Item not found"
           | Some item => Json item
           end
  | _, _ => Status 400 "Store ID and barcode required"
  end.

End StoreRoutes.

(** A token with no space in it survives [split(" ")] whole. *)
Definition no_space (t : string) : bool :=
  forallb (fun c => negb (Ascii.eqb c " "%char)) (list_ascii_of_string t).

(** The columns of an item row that no item route may change. *)
Definition item_key (i : ClothingItem.t) : Id * Id * nat :=
  (ClothingItem.id i, ClothingItem.storeId i, ClothingItem.tryOnCount i).

(** A customer validating the same token at each of the instants [times],
    one request after the other. *)
Fixpoint validateQr_each (d : DB) (times : list Z) (token : string)
    : list (Reply ValidateView.t) * DB :=
  match times with
  | [] => ([], d)
  | t :: ts =>
      let (r, d1) := validateQr d t token in
      let (rs, d2) := validateQr_each d1 ts token in
      (r :: rs, d2)
  end.

(** ** Sample database *)

Definition sample_db : DB :=
  mkDB
    [User.mk 1 "owner@shop.test" "$hash-owner" "company_owner" None false true;
     User.mk 2 "manager@shop.test" "$hash-manager" "store_manager" (Some 3) false true;
     User.mk 4 "former@shop.test" "$hash-former" "store_manager" (Some 3) false false]
    [Store.mk 3 "Main Street" None true;
     Store.mk 5 "Closed Store" None false]
    [ClothingItem.mk 30 3 "Shirt" "shirts" (Some "111") "/uploads/clothing/shirt.png" true 0;
     ClothingItem.mk 31 5 "Coat" "jackets" None "/uploads/clothing/coat.png" true 0]
    [QrSession.mk 10 3 "tokA" 5000;
     QrSession.mk 11 5 "tokB" 5000]
    [CustomerSession.mk 20 10 3 5000 (Some "/uploads/customers/p.jpg");
     CustomerSession.mk 21 10 3 5000 None]
    [] [] 100.

(** A deterministic stand-in for bcrypt on the sample database: the stored
    hash of [pw] is ["$hash-" ++ pw]. *)
Definition sample_hash (pw : string) : string := "$hash-" ++ pw.
Definition sample_compare (pw hash : string) : bool := String.eqb (sample_hash pw) hash.

(** ** General facts about the storage layer *)

Lemma first_filter_some {A} (f : A -> bool) (l : list A) (x : A) :
  first (filter f l) = Some x -> In x l /\ f x = true.
Proof.
  induction l as [|a l IH]; simpl; [discriminate|].
  destruct (f a) eqn:Ha; simpl.
  - intros [= <-]. auto.
  - intros H. destruct (IH H). auto.
Qed.

Lemma first_filter_none {A} (f : A -> bool) (l : list A) (x : A) :
  first (filter f l) = None -> In x l -> f x = true -> False.
Proof.
  induction l as [|a l IH]; simpl; [auto|].
  destruct (f a) eqn:Ha; simpl; [discriminate|].
  intros H [<-|Hin] Hx; [congruence|eauto].
Qed.

Lemma NoDup_map_same {A B} (f : A -> B) (l : list A) (x y : A) :
  NoDup (map f l) -> In x l -> In y l -> f x = f y -> x = y.
Proof.
  induction l as [|a l IH]; simpl; [tauto|].
  intros Hnd; inversion Hnd as [|? ? Hnotin Hnd']; subst.
  intros [<-|Hx] [<-|Hy] Hf; auto.
  - exfalso; apply Hnotin; rewrite Hf; apply in_map; auto.
  - exfalso; apply Hnotin; rewrite <- Hf; apply in_map; auto.
Qed.

Lemma getQrSessionByToken_some d now token q :
  getQrSessionByToken d now token = Some q ->
  In q (qrSessions d) /\ QrSession.token q = token /\ (now < QrSession.expiresAt q)%Z.
Proof.
  unfold getQrSessionByToken; intros H.
  apply first_filter_some in H as [Hin Hf].
  apply andb_true_iff in Hf as [Ht He].
  apply String.eqb_eq in Ht; apply Z.ltb_lt in He; auto.
Qed.

Lemma getQrSessionByToken_none d now token q :
  getQrSessionByToken d now token = None ->
  In q (qrSessions d) -> QrSession.token q = token ->
  (now < QrSession.expiresAt q)%Z -> False.
Proof.
  unfold getQrSessionByToken; intros H Hin Ht He.
  eapply first_filter_none; eauto.
  apply andb_true_iff; split; [apply String.eqb_eq | apply Z.ltb_lt]; auto.
Qed.

(** ** C1: validation of a QR token *)

(** C1: for a token, [validateQr] answers with a customer session exactly
    when the QR-session table holds a grant with that token whose expiry is
    still ahead and whose store exists and is active; otherwise it answers
    404 and writes nothing.  Tokens are unique in the table (they are 256
    random bits). *)
Theorem validateQr_succeeds_iff (d : DB) (now : Z) (token : string)
    (Htokens : NoDup (map QrSession.token (qrSessions d))) :
  ((exists v d', validateQr d now token = (Json v, d')) <->
   (exists q, In q (qrSessions d) /\ QrSession.token q = token /\
      (now < QrSession.expiresAt q)%Z /\
      exists store, getStore d (QrSession.storeId q) = Some store /\
                    Store.isActive store = true)) /\
  (~ (exists q, In q (qrSessions d) /\ QrSession.token q = token /\
        (now < QrSession.expiresAt q)%Z /\
        exists store, getStore d (QrSession.storeId q) = Some store /\
                      Store.isActive store = true) ->
   exists msg, validateQr d now token = (Status 404 msg, d)).
Proof.
  unfold validateQr.
  destruct (getQrSessionByToken d now token) as [q|] eqn:Hq.
  - destruct (getQrSessionByToken_some _ _ _ _ Hq) as (Hin & Ht & He).
    assert (Huniq : forall q', In q' (qrSessions d) -> QrSession.token q' = token -> q' = q)
      by (intros q' Hin' Ht'; eapply NoDup_map_same; eauto; congruence).
    destruct (getStore d (QrSession.storeId q)) as [store|] eqn:Hs.
    + destruct (Store.isActive store) eqn:Ha.
      * split.
        -- split; [intros _; exists q; eauto 6|].
           intros _; simpl; eauto.
        -- intros Hn; exfalso; apply Hn; exists q; eauto 6.
      * split.
        -- split; [intros (v & d' & Hv); discriminate|].
           intros (q' & Hin' & Ht' & _ & store' & Hs' & Ha').
           rewrite (Huniq q' Hin' Ht') in Hs'; congruence.
        -- intros _; eauto.
    + split.
      * split; [intros (v & d' & Hv); discriminate|].
        intros (q' & Hin' & Ht' & _ & store' & Hs' & _).
        rewrite (Huniq q' Hin' Ht') in Hs'; congruence.
      * intros _; eauto.
  - split.
    + split; [intros (v & d' & Hv); discriminate|].
      intros (q' & Hin' & Ht' & He' & _).
      exfalso; eapply getQrSessionByToken_none; eauto.
    + intros _; eauto.
Qed.

Lemma validateQr_succeeds_iff_witness :
  NoDup (map QrSession.token (qrSessions sample_db)) /\
  exists v d', validateQr sample_db 100 "tokA" = (Json v, d').
Proof.
  assert (Hnd : NoDup (map QrSession.token (qrSessions sample_db))).
  { simpl. constructor; [simpl; intros [H|[]]; discriminate|].
    constructor; [simpl; tauto|constructor]. }
  split; [exact Hnd|].
  apply (proj2 (proj1 (validateQr_succeeds_iff sample_db 100 "tokA" Hnd))).
  exists (QrSession.mk 10 3 "tokA" 5000).
  split; [simpl; auto|]. split; [reflexivity|]. split; [simpl; lia|].
  exists (Store.mk 3 "Main Street" None true). split; reflexivity.
Defined.

(** ** Try-on: the guards of POST /api/tryon *)

Lemma tryOn_after_expiry gen d now sid cid key out s :
  getCustomerSession d sid = Some s ->
  (CustomerSession.expiresAt s < now)%Z ->
  tryOn gen d now (Some sid) (Some cid) key out = (Status 401 "Session expired", d).
Proof.
  intros Hs He; unfold tryOn; rewrite Hs.
  apply Z.ltb_lt in He; rewrite He; reflexivity.
Qed.

(** C2 (defect): a session at the very millisecond of its expiry
    ([now = expiresAt]) is not rejected by POST /api/tryon, which tests
    [expiresAt < now]; the try-on goes through and writes a history row. *)
Lemma tryOn_at_expiry_instant :
  (exists v, fst (tryOn (fun _ _ _ => None) sample_db 5000 (Some 20) (Some 30)
                        None "result-1.png") = Json v) /\
  length (tryOnHistory (snd (tryOn (fun _ _ _ => None) sample_db 5000 (Some 20)
                                   (Some 30) None "result-1.png"))) = 1.
Proof. vm_compute. split; [eexists; reflexivity|reflexivity]. Qed.

(** C6: on a live session without a photo reference, POST /api/tryon
    answers 400 "Please upload a photo first" and the database is left as
    it was: no history row, no counter increment, no usage log. *)
Theorem tryOn_without_photo gen d now sid cid key out s
    (Hs : getCustomerSession d sid = Some s)
    (Hlive : (now <= CustomerSession.expiresAt s)%Z)
    (Hnophoto : truthy (CustomerSession.photoUrl s) = false) :
  tryOn gen d now (Some sid) (Some cid) key out =
    (Status 400 "Please upload a photo first", d).
Proof.
  unfold tryOn; rewrite Hs.
  replace (Z.ltb (CustomerSession.expiresAt s) now) with false
    by (symmetry; apply Z.ltb_ge; lia).
  rewrite Hnophoto; reflexivity.
Qed.

(** C3: on a live session with a photo, an item of another store is
    answered with 404 "Clothing item not found", with no write, and that is
    the very answer given for an item id that does not exist. *)
Theorem tryOn_cross_tenant_not_found gen d now sid cid key out s item
    (Hs : getCustomerSession d sid = Some s)
    (Hlive : (now <= CustomerSession.expiresAt s)%Z)
    (Hphoto : truthy (CustomerSession.photoUrl s) = true)
    (Hi : getClothingItem d cid = Some item)
    (Hother : ClothingItem.storeId item <> CustomerSession.storeId s) :
  tryOn gen d now (Some sid) (Some cid) key out =
    (Status 404 "Clothing item not found", d) /\
  (forall d0, getCustomerSession d0 sid = Some s -> getClothingItem d0 cid = None ->
     tryOn gen d0 now (Some sid) (Some cid) key out =
       (Status 404 "Clothing item not found", d0)).
Proof.
  assert (Hnx : Z.ltb (CustomerSession.expiresAt s) now = false)
    by (apply Z.ltb_ge; lia).
  split.
  - unfold tryOn; rewrite Hs, Hnx, Hphoto, Hi; simpl.
    apply Nat.eqb_neq in Hother; rewrite Hother; reflexivity.
  - intros d0 Hs0 Hi0; unfold tryOn; rewrite Hs0, Hnx, Hphoto, Hi0; reflexivity.
Qed.

Lemma tryOn_without_photo_witness :
  getCustomerSession sample_db 21 = Some (CustomerSession.mk 21 10 3 5000 None) /\
  (100 <= 5000)%Z /\ truthy None = false /\
  tryOn (fun _ _ _ => None) sample_db 100 (Some 21) (Some 30) None "result-1.png" =
    (Status 400 "Please upload a photo first", sample_db).
Proof.
  split; [reflexivity|]. split; [lia|]. split; [reflexivity|].
  apply (tryOn_without_photo _ _ _ _ _ _ _ (CustomerSession.mk 21 10 3 5000 None));
    [reflexivity | simpl; lia | reflexivity].
Defined.

Lemma tryOn_cross_tenant_not_found_witness :
  tryOn (fun _ _ _ => None) sample_db 100 (Some 20) (Some 31) None "result-1.png" =
    (Status 404 "Clothing item not found", sample_db).
Proof.
  apply (proj1 (tryOn_cross_tenant_not_found (fun _ _ _ => None) sample_db 100 20 31
    None "result-1.png"
    (CustomerSession.mk 20 10 3 5000 (Some "/uploads/customers/p.jpg"))
    (ClothingItem.mk 31 5 "Coat" "jackets" None "/uploads/clothing/coat.png" true 0)
    eq_refl ltac:(simpl; lia) eq_refl eq_refl ltac:(simpl; discriminate))).
Defined.

Lemma getClothingItem_id d cid item :
  getClothingItem d cid = Some item -> ClothingItem.id item = cid.
Proof.
  unfold getClothingItem; intros H.
  apply first_filter_some in H as [_ H]; apply Nat.eqb_eq in H; exact H.
Qed.

Lemma filter_map_bump (l : list ClothingItem.t) (cid : Id) :
  filter (fun i => Nat.eqb (ClothingItem.id i) cid)
    (map (fun i => if Nat.eqb (ClothingItem.id i) cid then bumpTryOnCount i else i) l) =
  map bumpTryOnCount (filter (fun i => Nat.eqb (ClothingItem.id i) cid) l).
Proof.
  induction l as [|x l IH]; simpl; [reflexivity|].
  destruct (Nat.eqb (ClothingItem.id x) cid) eqn:Hx; simpl.
  - rewrite Hx, IH; reflexivity.
  - rewrite Hx, IH; reflexivity.
Qed.

Lemma getClothingItem_incrementTryOnCount d cid item :
  getClothingItem d cid = Some item ->
  getClothingItem (incrementTryOnCount d cid) cid = Some (bumpTryOnCount item).
Proof.
  unfold getClothingItem, incrementTryOnCount, set_clothingItems; simpl.
  rewrite filter_map_bump.
  destruct (filter _ (clothingItems d)); simpl; congruence.
Qed.

(** C5: with no AI credential configured ([GEMINI_API_KEY] unset or empty),
    a try-on on a live session with a photo and an item of the session's
    store answers with the item's own image and a demo message, appends
    exactly one history row (session, item, that image), increments the
    item's counter once (the counter is one more than before), and appends
    one "try_on" usage log. *)
Theorem tryOn_degraded_mode gen d now sid cid key out s item
    (Hs : getCustomerSession d sid = Some s)
    (Hlive : (now <= CustomerSession.expiresAt s)%Z)
    (Hphoto : truthy (CustomerSession.photoUrl s) = true)
    (Hi : getClothingItem d cid = Some item)
    (Hsame : ClothingItem.storeId item = CustomerSession.storeId s)
    (Hkey : truthy key = false) :
  exists d',
    tryOn gen d now (Some sid) (Some cid) key out =
      (Json (TryOnView.mk (ClothingItem.imageUrl item)
               (Some "Demo mode - Gemini API key not configured")), d') /\
    (exists hid, tryOnHistory d' = (tryOnHistory d ++
       [TryOnHistory.mk hid (CustomerSession.id s) (ClothingItem.id item)
          (ClothingItem.imageUrl item)])%list) /\
    clothingItems d' = clothingItems (incrementTryOnCount d cid) /\
    getClothingItem d' cid = Some (bumpTryOnCount item) /\
    (exists lid md, usageLogs d' = (usageLogs d ++
       [UsageLog.mk lid (CustomerSession.storeId s) "try_on" md])%list).
Proof.
  pose proof (getClothingItem_id _ _ _ Hi) as Hid.
  assert (Hnx : Z.ltb (CustomerSession.expiresAt s) now = false)
    by (apply Z.ltb_ge; lia).
  unfold tryOn; rewrite Hs, Hnx, Hphoto, Hi, Hsame, Nat.eqb_refl, Hkey; simpl.
  eexists; split; [reflexivity|].
  rewrite Hid.
  split; [eexists; reflexivity|].
  split; [reflexivity|].
  split; [|do 2 eexists; reflexivity].
  rewrite <- (getClothingItem_incrementTryOnCount d cid item Hi).
  reflexivity.
Qed.

Lemma tryOn_degraded_mode_witness :
  exists d',
    tryOn (fun _ _ _ => None) sample_db 100 (Some 20) (Some 30) None "result-1.png" =
      (Json (TryOnView.mk "/uploads/clothing/shirt.png"
               (Some "Demo mode - Gemini API key not configured")), d') /\
    getClothingItem d' 30 =
      Some (ClothingItem.mk 30 3 "Shirt" "shirts" (Some "111")
              "/uploads/clothing/shirt.png" true 1).
Proof.
  destruct (tryOn_degraded_mode (fun _ _ _ => None) sample_db 100 20 30 None
    "result-1.png"
    (CustomerSession.mk 20 10 3 5000 (Some "/uploads/customers/p.jpg"))
    (ClothingItem.mk 30 3 "Shirt" "shirts" (Some "111") "/uploads/clothing/shirt.png" true 0)
    eq_refl ltac:(simpl; lia) eq_refl eq_refl eq_refl eq_refl)
    as (d' & Hr & _ & _ & Hc & _).
  exists d'. split; [exact Hr | exact Hc].
Defined.

(** ** Issue then validate *)

Lemma filter_fresh_token (l : list QrSession.t) (now : Z) (token : string) :
  ~ In token (map QrSession.token l) ->
  filter (fun q => String.eqb (QrSession.token q) token
                   && Z.ltb now (QrSession.expiresAt q)) l = [].
Proof.
  induction l as [|q l IH]; simpl; [reflexivity|].
  intros Hn.
  destruct (String.eqb (QrSession.token q) token) eqn:Ht.
  - apply String.eqb_eq in Ht; tauto.
  - simpl; apply IH; tauto.
Qed.

(** C4 (counterexample): a manager of an inactive store can still issue a
    QR grant, and the immediate validation of its token is refused. *)
Lemma issue_validate_inactive_store :
  ~ exists v d',
      validateQr (snd (generateQr sample_db 0 (Some 5) "tokC")) 0 "tokC" = (Json v, d').
Proof. vm_compute. intros (v & d' & H); discriminate. Qed.

(** C4 (amended): issuing a QR grant for an existing store at [now], with a
    token not yet in the table, succeeds whether or not the store is active.
    Validating the token at any [t] before the grant's expiry then yields,
    for an active store, a customer session whose expiry is the grant's own,
    [now + 1 hour], copied verbatim (not [t + 1 hour]), the new
    customer-session row carrying that same expiry; for an inactive store
    the validation is refused with 404 "Store not available" and writes
    nothing. *)
Theorem issue_then_validate_expiry (d : DB) (now t : Z) (sid : Id)
    (token : string) (store : Store.t)
    (Hstore : getStore d sid = Some store)
    (Hfresh : ~ In token (map QrSession.token (qrSessions d)))
    (Ht : (t < now + HOUR_MS)%Z) :
  exists d1,
    generateQr d now (Some sid) token = (Json (QrView.mk token (now + HOUR_MS)), d1) /\
    (Store.isActive store = true ->
     exists v d2,
       validateQr d1 t token = (Json v, d2) /\
       ValidateView.expiresAt v = (now + HOUR_MS)%Z /\
       ValidateView.storeId v = Store.id store /\
       exists qid, customerSessions d2 = (customerSessions d1 ++
         [CustomerSession.mk (ValidateView.sessionId v) qid sid (now + HOUR_MS) None])%list) /\
    (Store.isActive store = false ->
     validateQr d1 t token = (Status 404 "Store not available", d1)).
Proof.
  unfold generateQr, createQrSession, createUsageLog, fresh, set_qrSessions,
    set_usageLogs; simpl.
  eexists; split; [reflexivity|].
  unfold validateQr, getQrSessionByToken; simpl.
  rewrite filter_app, filter_fresh_token by exact Hfresh; simpl.
  rewrite String.eqb_refl.
  replace (Z.ltb t (now + HOUR_MS)) with true by (symmetry; apply Z.ltb_lt; exact Ht).
  simpl.
  unfold getStore in *; simpl; rewrite Hstore.
  split.
  - intros Hactive; rewrite Hactive; simpl.
    do 2 eexists.
    split; [reflexivity|].
    split; [reflexivity|]. split; [reflexivity|].
    eexists; reflexivity.
  - intros Hinactive; rewrite Hinactive; reflexivity.
Qed.

Lemma issue_then_validate_expiry_witness :
  (exists d1 v d2,
    generateQr sample_db 1000 (Some 3) "tokC" =
      (Json (QrView.mk "tokC" (1000 + HOUR_MS)), d1) /\
    validateQr d1 2000 "tokC" = (Json v, d2) /\
    ValidateView.expiresAt v = (1000 + HOUR_MS)%Z) /\
  (exists d1,
    generateQr sample_db 1000 (Some 5) "tokC" =
      (Json (QrView.mk "tokC" (1000 + HOUR_MS)), d1) /\
    validateQr d1 2000 "tokC" = (Status 404 "Store not available", d1)).
Proof.
  split.
  - destruct (issue_then_validate_expiry sample_db 1000 2000 3 "tokC"
      (Store.mk 3 "Main Street" None true) eq_refl
      ltac:(simpl; intros [H|[H|[]]]; discriminate)
      ltac:(unfold HOUR_MS; lia))
      as (d1 & H1 & Hact & _).
    destruct (Hact eq_refl) as (v & d2 & H2 & H3 & _).
    exists d1, v, d2. auto.
  - destruct (issue_then_validate_expiry sample_db 1000 2000 5 "tokC"
      (Store.mk 5 "Closed Store" None false) eq_refl
      ltac:(simpl; intros [H|[H|[]]]; discriminate)
      ltac:(unfold HOUR_MS; lia))
      as (d1 & H1 & _ & Hin).
    exists d1; split; [exact H1|exact (Hin eq_refl)].
Defined.

(** ** Repeated validation of one token *)

Lemma getQrSessionByToken_unique d t token q :
  NoDup (map QrSession.token (qrSessions d)) ->
  In q (qrSessions d) -> QrSession.token q = token ->
  (t < QrSession.expiresAt q)%Z ->
  getQrSessionByToken d t token = Some q.
Proof.
  intros Hnd Hin Ht He.
  destruct (getQrSessionByToken d t token) as [q'|] eqn:Hq.
  - destruct (getQrSessionByToken_some _ _ _ _ Hq) as (Hin' & Ht' & _).
    f_equal; eapply NoDup_map_same; eauto; congruence.
  - exfalso; eapply getQrSessionByToken_none; eauto.
Qed.

Lemma validateQr_step d t token q store :
  NoDup (map QrSession.token (qrSessions d)) ->
  In q (qrSessions d) -> QrSession.token q = token ->
  getStore d (QrSession.storeId q) = Some store -> Store.isActive store = true ->
  (t < QrSession.expiresAt q)%Z ->
  exists d1,
    validateQr d t token =
      (Json (ValidateView.mk (next_id d) (Store.id store) (Store.name store)
               (QrSession.expiresAt q)), d1) /\
    qrSessions d1 = qrSessions d /\ stores d1 = stores d /\
    next_id d1 = S (S (next_id d)) /\
    length (customerSessions d1) = S (length (customerSessions d)).
Proof.
  intros Hnd Hin Ht Hs Ha He.
  unfold validateQr; rewrite (getQrSessionByToken_unique d t token q Hnd Hin Ht He), Hs, Ha.
  simpl; eexists; split; [reflexivity|].
  simpl; rewrite length_app; simpl; repeat split; lia.
Qed.

Lemma validateQr_each_fresh d times token q store :
  NoDup (map QrSession.token (qrSessions d)) ->
  In q (qrSessions d) -> QrSession.token q = token ->
  getStore d (QrSession.storeId q) = Some store -> Store.isActive store = true ->
  Forall (fun t => t < QrSession.expiresAt q)%Z times ->
  exists ids d',
    validateQr_each d times token =
      (map (fun i => Json (ValidateView.mk i (Store.id store) (Store.name store)
                             (QrSession.expiresAt q))) ids, d') /\
    NoDup ids /\ Forall (fun i => next_id d <= i < next_id d') ids /\
    next_id d <= next_id d' /\
    length ids = length times /\
    length (customerSessions d') = length (customerSessions d) + length times /\
    qrSessions d' = qrSessions d.
Proof.
  revert d; induction times as [|t ts IH]; intros d Hnd Hin Ht Hs Ha Hall.
  - exists [], d; simpl; repeat split; auto; constructor.
  - inversion Hall as [|? ? Ht0 Hts]; subst.
    destruct (validateQr_step d t (QrSession.token q) q store Hnd Hin eq_refl Hs Ha Ht0)
      as (d1 & Hv & Hq1 & Hs1 & Hn1 & Hl1).
    assert (Hs' : getStore d1 (QrSession.storeId q) = Some store)
      by (unfold getStore in *; rewrite Hs1; exact Hs).
    destruct (IH d1 ltac:(rewrite Hq1; exact Hnd) ltac:(rewrite Hq1; exact Hin)
                 eq_refl Hs' Ha Hts)
      as (ids & d' & He & Hnd' & Hrange & Hle & Hlen & Hcs & Hq').
    exists (next_id d :: ids), d'.
    simpl; rewrite Hv, He; simpl.
    split; [reflexivity|].
    split; [constructor; [|exact Hnd']|].
    { intros Hi; rewrite Forall_forall in Hrange; specialize (Hrange _ Hi); lia. }
    split; [constructor; [lia|]|].
    { eapply Forall_impl; [|exact Hrange]; simpl; intros i Hi; lia. }
    split; [lia|]. split; [simpl; lia|].
    split; [rewrite Hcs, Hl1; simpl; lia|].
    rewrite Hq', Hq1; reflexivity.
Qed.

(** C7: a validated token stays valid.  Validating a still-valid token at
    any number of instants before its expiry succeeds every time; each
    success creates its own customer session, the session ids are pairwise
    distinct, the customer-session table grows by one row per call, and the
    QR-session table is never changed (no "used" mark). *)
Theorem validateQr_repeatable d times token q store
    (Htokens : NoDup (map QrSession.token (qrSessions d)))
    (Hin : In q (qrSessions d)) (Htok : QrSession.token q = token)
    (Hstore : getStore d (QrSession.storeId q) = Some store)
    (Hactive : Store.isActive store = true)
    (Hbefore : Forall (fun t => t < QrSession.expiresAt q)%Z times) :
  exists ids d',
    validateQr_each d times token =
      (map (fun i => Json (ValidateView.mk i (Store.id store) (Store.name store)
                             (QrSession.expiresAt q))) ids, d') /\
    NoDup ids /\ length ids = length times /\
    length (customerSessions d') = length (customerSessions d) + length times /\
    qrSessions d' = qrSessions d.
Proof.
  destruct (validateQr_each_fresh d times token q store Htokens Hin Htok Hstore
              Hactive Hbefore)
    as (ids & d' & He & Hnd & _ & _ & Hlen & Hcs & Hq).
  exists ids, d'; auto.
Qed.

Lemma validateQr_repeatable_witness :
  exists ids d',
    validateQr_each sample_db [100%Z; 200%Z; 300%Z] "tokA" =
      (map (fun i => Json (ValidateView.mk i 3 "Main Street" 5000)) ids, d') /\
    NoDup ids /\ length ids = 3.
Proof.
  destruct (validateQr_repeatable sample_db [100%Z; 200%Z; 300%Z] "tokA"
    (QrSession.mk 10 3 "tokA" 5000) (Store.mk 3 "Main Street" None true)
    ltac:(simpl; constructor; [simpl; intros [H|[]]; discriminate|];
          constructor; [simpl; tauto|constructor])
    ltac:(simpl; auto) eq_refl eq_refl eq_refl
    ltac:(repeat constructor))
    as (ids & d' & He & Hnd & Hlen & _).
  exists ids, d'; auto.
Defined.

(** ** Attaching a photo *)

Lemma getCustomerSession_update d sid url :
  getCustomerSession (updateCustomerSessionPhoto d sid url) sid =
  option_map (setPhotoUrl url) (getCustomerSession d sid).
Proof.
  unfold getCustomerSession, updateCustomerSessionPhoto, set_customerSessions; simpl.
  induction (customerSessions d) as [|x l IH]; simpl; [reflexivity|].
  destruct (Nat.eqb (CustomerSession.id x) sid) eqn:Hx; simpl.
  - rewrite Hx; reflexivity.
  - rewrite Hx; exact IH.
Qed.

Lemma updateCustomerSessionPhoto_twice d sid url1 url2 :
  updateCustomerSessionPhoto (updateCustomerSessionPhoto d sid url1) sid url2 =
  updateCustomerSessionPhoto d sid url2.
Proof.
  unfold updateCustomerSessionPhoto, set_customerSessions; simpl; f_equal.
  rewrite map_map; apply map_ext; intros x.
  destruct (Nat.eqb (CustomerSession.id x) sid) eqn:Hx; simpl; rewrite Hx; reflexivity.
Qed.

(** C8: on a live session, attaching a photo file sets the session's photo
    reference to "/uploads/customers/<file>", overwriting whatever an
    earlier upload (successful or not) left, so the state after two uploads
    is the state after the last one alone.  Attaching a photo file to a
    session id answers ok or 401 "Session expired" (the answer also given
    for an unknown session id, which thus counts as Expired rather than
    NotFound), nothing else. *)
Theorem uploadPhoto_overwrites d now1 now2 sid f1 file s
    (Hs : getCustomerSession d sid = Some s)
    (Hlive : (now2 <= CustomerSession.expiresAt s)%Z) :
  uploadPhoto (snd (uploadPhoto d now1 (Some sid) f1)) now2 (Some sid) (Some file) =
    uploadPhoto d now2 (Some sid) (Some file) /\
  uploadPhoto d now2 (Some sid) (Some file) =
    (Json ("/uploads/customers/" ++ file),
     updateCustomerSessionPhoto d sid ("/uploads/customers/" ++ file)) /\
  getCustomerSession (snd (uploadPhoto d now2 (Some sid) (Some file))) sid =
    Some (setPhotoUrl ("/uploads/customers/" ++ file) s) /\
  (forall d0 now sid0 f0,
     let r := fst (uploadPhoto d0 now (Some sid0) (Some f0)) in
     (exists url, r = Json url) \/ r = Status 401 "Session expired").
Proof.
  assert (Hnx : Z.ltb (CustomerSession.expiresAt s) now2 = false)
    by (apply Z.ltb_ge; lia).
  assert (Hsecond : uploadPhoto d now2 (Some sid) (Some file) =
    (Json ("/uploads/customers/" ++ file),
     updateCustomerSessionPhoto d sid ("/uploads/customers/" ++ file)))
    by (unfold uploadPhoto; rewrite Hs, Hnx; reflexivity).
  split; [|split; [exact Hsecond|split]].
  - rewrite Hsecond.
    unfold uploadPhoto at 2; rewrite Hs.
    destruct (Z.ltb (CustomerSession.expiresAt s) now1); [exact Hsecond|].
    destruct f1 as [f1|]; [|exact Hsecond].
    simpl; unfold uploadPhoto.
    rewrite getCustomerSession_update, Hs; simpl; rewrite Hnx.
    rewrite updateCustomerSessionPhoto_twice; reflexivity.
  - rewrite Hsecond; simpl; rewrite getCustomerSession_update, Hs; reflexivity.
  - intros d0 now sid0 f0; simpl; unfold uploadPhoto.
    destruct (getCustomerSession d0 sid0) as [s0|]; [|tauto].
    destruct (Z.ltb (CustomerSession.expiresAt s0) now); [tauto|].
    left; eexists; reflexivity.
Qed.

Lemma uploadPhoto_overwrites_witness :
  getCustomerSession
    (snd (uploadPhoto (snd (uploadPhoto sample_db 100 (Some 21) (Some "a.jpg")))
                      200 (Some 21) (Some "b.jpg"))) 21 =
    Some (CustomerSession.mk 21 10 3 5000 (Some "/uploads/customers/b.jpg")).
Proof.
  destruct (uploadPhoto_overwrites sample_db 100 200 21 (Some "a.jpg") "b.jpg"
    (CustomerSession.mk 21 10 3 5000 None) eq_refl ltac:(simpl; lia))
    as (H1 & _ & H3 & _).
  exact (eq_trans (f_equal (fun r => getCustomerSession (snd r) 21) H1) H3).
Defined.

(** ** Passwords and login *)

Lemma resetStoreManagerPassword_keeps_db hash d sid tempPassword :
  snd (resetStoreManagerPassword hash d sid tempPassword) = d.
Proof.
  unfold resetStoreManagerPassword; destruct (getStore d sid); reflexivity.
Qed.

(** C9 (defect): the owner's reset of a store manager's password answers
    "Password reset successfully" with a temporary password but writes no
    user row: afterwards the temporary password is refused at login and the
    old one still works.  The user's own reset (the sibling route) does
    replace the hash, and the new password logs in. *)
Theorem owner_reset_password_not_applied :
  resetStoreManagerPassword sample_hash sample_db 3 "a1b2c3d4" =
    (Json ("a1b2c3d4", "Password reset successfully"), sample_db) /\
  login sample_compare
    (snd (resetStoreManagerPassword sample_hash sample_db 3 "a1b2c3d4")) 0
    (Some ("manager@shop.test", "a1b2c3d4")) = Status 401 "Invalid credentials" /\
  (exists v, login sample_compare
    (snd (resetStoreManagerPassword sample_hash sample_db 3 "a1b2c3d4")) 0
    (Some ("manager@shop.test", "manager")) = Json v) /\
  (exists v, login sample_compare
    (snd (resetOwnPassword sample_compare sample_hash sample_db 2
            (Some ("manager", "s3cret")))) 0
    (Some ("manager@shop.test", "s3cret")) = Json v).
Proof.
  rewrite resetStoreManagerPassword_keeps_db.
  vm_compute.
  split; [reflexivity|]. split; [reflexivity|].
  split; eexists; reflexivity.
Qed.

(** C10: when the user found for the login email is deactivated, login is
    refused with 401 "Invalid credentials", whatever the password, and no
    token is issued; this is the very answer given to an active user with a
    wrong password. *)
Theorem login_inactive_rejected compare d now email password u
    (Hu : getUserByEmail d email = Some u)
    (Hinactive : User.isActive u = false) :
  login compare d now (Some (email, password)) = Status 401 "Invalid credentials" /\
  (forall d' u', getUserByEmail d' email = Some u' -> User.isActive u' = true ->
     compare password (User.password u') = false ->
     login compare d' now (Some (email, password)) =
       Status 401 "Invalid credentials").
Proof.
  split.
  - unfold login; rewrite Hu, Hinactive; reflexivity.
  - intros d' u' Hu' Ha Hc; unfold login; rewrite Hu', Ha, Hc; reflexivity.
Qed.

Lemma login_inactive_rejected_witness :
  login sample_compare sample_db 0 (Some ("former@shop.test", "former")) =
    Status 401 "Invalid credentials".
Proof.
  apply (proj1 (login_inactive_rejected sample_compare sample_db 0
    "former@shop.test" "former"
    (User.mk 4 "former@shop.test" "$hash-former" "store_manager" (Some 3) false false)
    eq_refl eq_refl)).
Defined.

(** ** Browsing, barcode scan and item management *)

Lemma storeItems_In d sid i :
  In i (storeItems d sid) <-> In i (clothingItems d) /\ ClothingItem.storeId i = sid.
Proof. unfold storeItems; rewrite <- in_rev, filter_In, Nat.eqb_eq; tauto. Qed.

Lemma getClothingItemsByStore_In d sid category l i :
  getClothingItemsByStore d sid category = Some l ->
  In i l <->
  In i (clothingItems d) /\ ClothingItem.storeId i = sid /\
  (forall c, category = Some c -> c <> "" -> ClothingItem.category i = c).
Proof.
  unfold getClothingItemsByStore.
  destruct category as [c|].
  - destruct (String.eqb c "") eqn:Hc; simpl.
    + intros [= <-]. apply String.eqb_eq in Hc; subst.
      rewrite storeItems_In.
      split; [intros [H1 H2]; repeat split; auto; intros c' [= <-]; tauto|tauto].
    + destruct (is_category c); [intros [= <-]|discriminate].
      apply String.eqb_neq in Hc.
      rewrite <- in_rev, filter_In, andb_true_iff, Nat.eqb_eq, String.eqb_eq.
      split.
      * intros (H1 & H2 & H3); repeat split; auto; intros c' [= <-] _; auto.
      * intros (H1 & H2 & H3); repeat split; auto.
  - intros [= <-]; rewrite storeItems_In.
    split; [intros [H1 H2]; repeat split; auto; discriminate|tauto].
Qed.

Lemma getClothingItemsByStore_ok d sid category :
  category_filter_ok category = true ->
  exists l, getClothingItemsByStore d sid category = Some l.
Proof.
  unfold category_filter_ok, getClothingItemsByStore.
  destruct category as [c|]; [|eauto].
  destruct (String.eqb c ""); simpl; [eauto|].
  intros ->; eauto.
Qed.

Lemma getClothingItemsByStore_rejected d sid category :
  category_filter_ok category = false ->
  getClothingItemsByStore d sid category = None.
Proof.
  unfold category_filter_ok, getClothingItemsByStore.
  destruct category as [c|]; [|discriminate].
  destruct (String.eqb c ""); simpl; [discriminate|].
  intros ->; reflexivity.
Qed.

(** The customer listing of a store holds exactly the available items of
    that store (of the requested category, when one is given) whenever the
    category is absent, empty or a value of the enum; any other category
    makes the query fail, answered 500; a missing store id is answered
    400. *)
Theorem customerClothes_exact d sid category :
  customerClothes d None category = Status 400 "Store ID required" /\
  (category_filter_ok category = false ->
   customerClothes d (Some sid) category = Status 500 "Failed to get clothes") /\
  (category_filter_ok category = true ->
   exists l, customerClothes d (Some sid) category = Json l /\
   forall i, In i l <->
     In i (clothingItems d) /\ ClothingItem.storeId i = sid /\
     ClothingItem.isAvailable i = true /\
     (forall c, category = Some c -> c <> "" -> ClothingItem.category i = c)).
Proof.
  split; [reflexivity|]; split.
  - intros Hc; unfold customerClothes.
    rewrite getClothingItemsByStore_rejected by exact Hc; reflexivity.
  - intros Hc; destruct (getClothingItemsByStore_ok d sid category Hc) as [l Hl].
    unfold customerClothes; rewrite Hl.
    eexists; split; [reflexivity|].
    intros i; rewrite filter_In, (getClothingItemsByStore_In _ _ _ _ _ Hl); tauto.
Qed.

Lemma customerClothes_exact_witness :
  customerClothes sample_db (Some 3) (Some "hats") = Status 500 "Failed to get clothes" /\
  exists l, customerClothes sample_db (Some 3) (Some "shirts") = Json l /\
    In (ClothingItem.mk 30 3 "Shirt" "shirts" (Some "111")
          "/uploads/clothing/shirt.png" true 0) l.
Proof.
  split.
  - exact (proj1 (proj2 (customerClothes_exact sample_db 3 (Some "hats"))) eq_refl).
  - destruct (proj2 (proj2 (customerClothes_exact sample_db 3 (Some "shirts"))) eq_refl)
      as (l & Hl & Hin).
    exists l; split; [exact Hl|].
    apply Hin; split; [simpl; tauto|].
    split; [reflexivity|]; split; [reflexivity|].
    intros c [= <-] _; reflexivity.
Defined.

(** A barcode scan only ever answers an item of the requested store that
    carries that barcode; it answers 404 exactly when the store has no item
    with that barcode. *)
Theorem scanBarcode_scoped d sid b
    (Hb : b <> "") :
  (exists i, scanBarcode d (Some sid) (Some b) = Json i /\
     In i (clothingItems d) /\ ClothingItem.storeId i = sid /\
     ClothingItem.barcode i = Some b) \/
  (scanBarcode d (Some sid) (Some b) = Status 404 "Item not found" /\
   forall i, In i (clothingItems d) -> ClothingItem.storeId i = sid ->
     ClothingItem.barcode i <> Some b).
Proof.
  unfold scanBarcode.
  apply String.eqb_neq in Hb; rewrite Hb.
  destruct (getClothingItemByBarcode d sid b) as [i|] eqn:Hi.
  - left; exists i; split; [reflexivity|].
    unfold getClothingItemByBarcode in Hi.
    apply first_filter_some in Hi as [Hin Hp].
    apply andb_true_iff in Hp as [Hs Hbar]; apply Nat.eqb_eq in Hs.
    destruct (ClothingItem.barcode i) as [b'|]; [|discriminate].
    apply String.eqb_eq in Hbar; subst; auto.
  - right; split; [reflexivity|].
    intros i Hin Hs Hbar.
    unfold getClothingItemByBarcode in Hi.
    eapply first_filter_none; [exact Hi|exact Hin|].
    cbv beta; rewrite Hs, Nat.eqb_refl, Hbar, String.eqb_refl; reflexivity.
Qed.

Lemma scanBarcode_scoped_witness :
  exists i, scanBarcode sample_db (Some 3) (Some "111") = Json i /\
    ClothingItem.storeId i = 3.
Proof.
  destruct (scanBarcode_scoped sample_db 3 "111" ltac:(discriminate))
    as [(i & H1 & _ & H3 & _)|(H1 & _)].
  - exists i; auto.
  - vm_compute in H1; discriminate.
Defined.

(** A manager can neither edit, delete nor toggle an item of another store:
    the three routes answer 404 "Item not found", as for a missing item,
    and write nothing. *)
Theorem item_routes_cross_store_guard d sid id item name category barcode
    isAvailable file
    (Hi : getClothingItem d id = Some item)
    (Hother : ClothingItem.storeId item <> sid) :
  updateItem d (Some sid) id name category barcode isAvailable file =
    (Status 404 "Item not found", d) /\
  deleteItem d (Some sid) id = (Status 404 "Item not found", d) /\
  toggleAvailability d (Some sid) id = (Status 404 "Item not found", d).
Proof.
  assert (Hown : ownItem d (Some sid) id = None).
  { unfold ownItem; rewrite Hi. apply Nat.eqb_neq in Hother; rewrite Hother; reflexivity. }
  unfold updateItem, deleteItem, toggleAvailability; rewrite Hown; auto.
Qed.

Lemma item_routes_cross_store_guard_witness :
  deleteItem sample_db (Some 3) 31 = (Status 404 "Item not found", sample_db).
Proof.
  apply (item_routes_cross_store_guard sample_db 3 31
    (ClothingItem.mk 31 5 "Coat" "jackets" None "/uploads/clothing/coat.png" true 0)
    None None None None None eq_refl ltac:(discriminate)).
Defined.

Lemma ownItem_some d sid id item :
  ownItem d (Some sid) id = Some item ->
  getClothingItem d id = Some item /\ ClothingItem.storeId item = sid.
Proof.
  unfold ownItem; destruct (getClothingItem d id) as [i|]; [|discriminate].
  destruct (Nat.eqb (ClothingItem.storeId i) sid) eqn:H; [|discriminate].
  intros [= <-]; apply Nat.eqb_eq in H; auto.
Qed.

(** Toggling the availability of an available item of one's own store
    hides it (every row with that id) from the customer listing, for every
    category query the listing accepts. *)
Theorem toggleAvailability_hides d sid id item category
    (Hi : getClothingItem d id = Some item)
    (Hown : ClothingItem.storeId item = sid)
    (Havail : ClothingItem.isAvailable item = true)
    (Hcat : category_filter_ok category = true) :
  exists r d',
    toggleAvailability d (Some sid) id = (Json r, d') /\
    exists l, customerClothes d' (Some sid) category = Json l /\
      forall i, In i l -> ClothingItem.id i <> id.
Proof.
  pose proof (getClothingItem_id _ _ _ Hi) as Hid.
  unfold toggleAvailability, ownItem; rewrite Hi, Hown, Nat.eqb_refl, Havail.
  simpl. do 2 eexists; split; [reflexivity|].
  match goal with |- context [getClothingItemsByStore ?d' _ _] =>
    destruct (getClothingItemsByStore_ok d' sid category Hcat) as [l Hl] end.
  unfold customerClothes; rewrite Hl.
  eexists; split; [reflexivity|].
  intros i Hin; apply filter_In in Hin as [Hin Ha].
  apply (getClothingItemsByStore_In _ _ _ _ _ Hl) in Hin as [Hin _]; simpl in Hin.
  apply in_map_iff in Hin as (x & <- & Hx).
  rewrite Hid in *.
  destruct (Nat.eqb (ClothingItem.id x) id) eqn:He; simpl in *.
  - discriminate Ha.
  - apply Nat.eqb_neq in He; exact He.
Qed.

Lemma toggleAvailability_hides_witness :
  exists r d',
    toggleAvailability sample_db (Some 3) 30 = (Json r, d') /\
    customerClothes d' (Some 3) None = Json [].
Proof.
  destruct (toggleAvailability_hides sample_db 3 30
    (ClothingItem.mk 30 3 "Shirt" "shirts" (Some "111") "/uploads/clothing/shirt.png" true 0)
    None eq_refl eq_refl eq_refl eq_refl) as (r & d' & H & _).
  exists r, d'; split; [exact H|].
  vm_compute in H; injection H as _ <-; reflexivity.
Defined.

(** After a manager deletes an item of their store, no row with its id is
    left, and a try-on request for it on any live session with a photo
    answers 404 "Clothing item not found". *)
Theorem deleteItem_removes d sid id item gen now csid key out s
    (Hi : getClothingItem d id = Some item)
    (Hown : ClothingItem.storeId item = sid)
    (Hs : getCustomerSession d csid = Some s)
    (Hlive : (now <= CustomerSession.expiresAt s)%Z)
    (Hphoto : truthy (CustomerSession.photoUrl s) = true) :
  exists d',
    deleteItem d (Some sid) id = (Json "Item deleted", d') /\
    (forall i, In i (clothingItems d') -> ClothingItem.id i <> id) /\
    tryOn gen d' now (Some csid) (Some id) key out =
      (Status 404 "Clothing item not found", d').
Proof.
  pose proof (getClothingItem_id _ _ _ Hi) as Hid.
  unfold deleteItem, ownItem; rewrite Hi, Hown, Nat.eqb_refl, Hid.
  eexists; split; [reflexivity|].
  assert (Hgone : forall i, In i (clothingItems (deleteClothingItem d id)) ->
                            ClothingItem.id i <> id).
  { intros i Hin; simpl in Hin; apply filter_In in Hin as [_ H].
    apply negb_true_iff, Nat.eqb_neq in H; exact H. }
  split; [exact Hgone|].
  assert (Hnone : getClothingItem (deleteClothingItem d id) id = None).
  { unfold getClothingItem.
    destruct (filter _ (clothingItems (deleteClothingItem d id))) as [|x l] eqn:Hf;
      [reflexivity|].
    exfalso. assert (Hx : In x (x :: l)) by (left; reflexivity).
    rewrite <- Hf in Hx; apply filter_In in Hx as [Hx Hp].
    apply Nat.eqb_eq in Hp; exact (Hgone x Hx Hp). }
  assert (Hs' : getCustomerSession (deleteClothingItem d id) csid = Some s) by exact Hs.
  unfold tryOn; rewrite Hs'.
  replace (Z.ltb (CustomerSession.expiresAt s) now) with false
    by (symmetry; apply Z.ltb_ge; lia).
  rewrite Hphoto, Hnone; reflexivity.
Qed.

Lemma deleteItem_removes_witness :
  exists d', deleteItem sample_db (Some 3) 30 = (Json "Item deleted", d') /\
    tryOn (fun _ _ _ => None) d' 100 (Some 20) (Some 30) None "result-1.png" =
      (Status 404 "Clothing item not found", d').
Proof.
  destruct (deleteItem_removes sample_db 3 30
    (ClothingItem.mk 30 3 "Shirt" "shirts" (Some "111") "/uploads/clothing/shirt.png" true 0)
    (fun _ _ _ => None) 100 20 None "result-1.png"
    (CustomerSession.mk 20 10 3 5000 (Some "/uploads/customers/p.jpg"))
    eq_refl eq_refl eq_refl ltac:(simpl; lia) eq_refl) as (d' & H1 & _ & H3).
  exists d'; auto.
Defined.

(** ** Stores, managers and passwords *)

Lemma first_none_nil {A} (l : list A) : first l = None -> l = [].
Proof. destruct l; simpl; congruence. Qed.

Lemma filter_map_comm {A} (p : A -> bool) (g : A -> A) (l : list A) :
  (forall x, p (g x) = p x) -> filter p (map g l) = map g (filter p l).
Proof.
  intros Hg; induction l as [|x l IH]; simpl; [reflexivity|].
  rewrite Hg; destruct (p x); simpl; rewrite IH; reflexivity.
Qed.

Lemma first_map {A B} (g : A -> B) (l : list A) :
  first (map g l) = option_map g (first l).
Proof. destruct l; reflexivity. Qed.

(** Creating a store for an email that is already registered is refused
    with 400 "Email already registered": no store, user or log is created. *)
Theorem createStoreManager_duplicate_email hash sdef udef d ownerEmail email
    storeName storeDescription tempPassword u
    (Hu : getUserByEmail d email = Some u) :
  createStoreManager hash sdef udef d ownerEmail
    (Some (email, storeName, storeDescription)) tempPassword =
    (Status 400 "Email already registered", d).
Proof. unfold createStoreManager; rewrite Hu; reflexivity. Qed.

Lemma createStoreManager_duplicate_email_witness :
  createStoreManager sample_hash true true sample_db "owner@shop.test"
    (Some ("manager@shop.test", "Second Store", None)) "a1b2c3d4" =
    (Status 400 "Email already registered", sample_db).
Proof.
  apply (createStoreManager_duplicate_email sample_hash true true sample_db
    "owner@shop.test" "manager@shop.test" "Second Store" None "a1b2c3d4"
    (User.mk 2 "manager@shop.test" "$hash-manager" "store_manager" (Some 3) false true)
    eq_refl).
Defined.

(** Creating a store with a new manager email answers the new store and the
    temporary password; when users are active by default and bcrypt accepts
    a password against its own hash, the manager can then log in with that
    temporary password, as a store manager of the new store who must reset
    the password. *)
Theorem createStoreManager_then_login compare hash sdef d now ownerEmail email
    storeName storeDescription tempPassword
    (Hnew : getUserByEmail d email = None)
    (Hbcrypt : compare tempPassword (hash tempPassword) = true) :
  exists store d',
    createStoreManager hash sdef true d ownerEmail
      (Some (email, storeName, storeDescription)) tempPassword =
      (Json (store, tempPassword), d') /\
    Store.name store = storeName /\
    exists v, login compare d' now (Some (email, tempPassword)) = Json v /\
      LoginView.role v = "store_manager" /\
      LoginView.storeId v = Some (Store.id store) /\
      LoginView.mustResetPassword v = true.
Proof.
  unfold createStoreManager; rewrite Hnew; simpl.
  do 2 eexists; split; [reflexivity|]. split; [reflexivity|].
  unfold login, getUserByEmail; simpl.
  unfold getUserByEmail in Hnew; apply first_none_nil in Hnew.
  rewrite filter_app, Hnew; simpl.
  rewrite String.eqb_refl; simpl. rewrite Hbcrypt; simpl.
  eexists; split; [reflexivity|]. auto.
Qed.

Lemma createStoreManager_then_login_witness :
  exists store d',
    createStoreManager sample_hash true true sample_db "owner@shop.test"
      (Some ("new@shop.test", "Second Store", None)) "a1b2c3d4" =
      (Json (store, "a1b2c3d4"), d') /\
    exists v, login sample_compare d' 0 (Some ("new@shop.test", "a1b2c3d4")) = Json v.
Proof.
  destruct (createStoreManager_then_login sample_compare sample_hash true sample_db 0
    "owner@shop.test" "new@shop.test" "Second Store" None "a1b2c3d4" eq_refl eq_refl)
    as (store & d' & H1 & _ & v & H2 & _).
  exists store, d'; split; [exact H1|]. exists v; exact H2.
Defined.

Lemma getUserByEmail_updateUserPassword d u pw b :
  getUserByEmail d (User.email u) = Some u ->
  getUserByEmail (updateUserPassword d (User.id u) pw b) (User.email u) =
    Some (User.mk (User.id u) (User.email u) pw (User.role u) (User.storeId u) b
                  (User.isActive u)).
Proof.
  unfold getUserByEmail, updateUserPassword, set_users; simpl; intros H.
  rewrite filter_map_comm
    by (intros x; destruct (Nat.eqb (User.id x) (User.id u)); reflexivity).
  rewrite first_map, H; simpl; rewrite Nat.eqb_refl; reflexivity.
Qed.

(** After users change their own password (knowing the current one), they
    log in with the new password and are no longer asked to reset it, when
    bcrypt accepts a password against its own hash. *)
Theorem resetOwnPassword_then_login compare hash d now u currentPassword newPassword
    (Hu : getUser d (User.id u) = Some u)
    (Hemail : getUserByEmail d (User.email u) = Some u)
    (Hactive : User.isActive u = true)
    (Hcurrent : compare currentPassword (User.password u) = true)
    (Hbcrypt : compare newPassword (hash newPassword) = true) :
  exists d',
    resetOwnPassword compare hash d (User.id u)
      (Some (currentPassword, newPassword)) =
      (Json "Password updated successfully", d') /\
    exists v, login compare d' now (Some (User.email u, newPassword)) = Json v /\
      LoginView.id v = User.id u /\ LoginView.mustResetPassword v = false.
Proof.
  unfold resetOwnPassword; rewrite Hu, Hcurrent; simpl.
  eexists; split; [reflexivity|].
  unfold login; rewrite getUserByEmail_updateUserPassword by exact Hemail.
  simpl; rewrite Hactive, Hbcrypt; simpl.
  eexists; split; [reflexivity|]. auto.
Qed.

Lemma resetOwnPassword_then_login_witness :
  exists d',
    resetOwnPassword sample_compare sample_hash sample_db 2
      (Some ("manager", "s3cret")) = (Json "Password updated successfully", d') /\
    exists v, login sample_compare d' 0 (Some ("manager@shop.test", "s3cret")) = Json v.
Proof.
  destruct (resetOwnPassword_then_login sample_compare sample_hash sample_db 0
    (User.mk 2 "manager@shop.test" "$hash-manager" "store_manager" (Some 3) false true)
    "manager" "s3cret" eq_refl eq_refl eq_refl eq_refl eq_refl)
    as (d' & H1 & v & H2 & _).
  exists d'; split; [exact H1|]. exists v; exact H2.
Defined.

(** Login issues a token only to an active user found by the email whose
    password bcrypt accepts; the token carries that user's id, email, role
    and store and expires 86400 seconds after the login instant, counted in
    whole seconds. *)
Theorem login_success_token compare d now email password v
    (Hok : login compare d now (Some (email, password)) = Json v) :
  exists u, getUserByEmail d email = Some u /\ User.email u = email /\
    User.isActive u = true /\ compare password (User.password u) = true /\
    LoginView.token v =
      Jwt.mk (User.id u) (User.email u) (User.role u) (User.storeId u)
             (unix_seconds now + DAY_S).
Proof.
  unfold login in Hok.
  destruct (getUserByEmail d email) as [u|] eqn:Hu; [|discriminate].
  destruct (User.isActive u) eqn:Ha; [|discriminate].
  destruct (compare password (User.password u)) eqn:Hc; [|discriminate].
  simpl in Hok; injection Hok as <-.
  exists u; repeat split; auto.
  unfold getUserByEmail in Hu; apply first_filter_some in Hu as [_ He].
  apply String.eqb_eq in He; exact He.
Qed.

Lemma login_success_token_witness :
  exists u, getUserByEmail sample_db "manager@shop.test" = Some u /\
    LoginView.token
      (LoginView.mk (Jwt.mk 2 "manager@shop.test" "store_manager" (Some 3) 86400)
         2 "manager@shop.test" "store_manager" (Some 3) (Some "Main Street") false) =
    Jwt.mk (User.id u) (User.email u) (User.role u) (User.storeId u)
      (unix_seconds 100 + DAY_S).
Proof.
  destruct (login_success_token sample_compare sample_db 100 "manager@shop.test" "manager"
    (LoginView.mk (Jwt.mk 2 "manager@shop.test" "store_manager" (Some 3) 86400)
       2 "manager@shop.test" "store_manager" (Some 3) (Some "Main Street") false)
    ltac:(vm_compute; reflexivity)) as (u & H1 & _ & _ & _ & H5).
  exists u; auto.
Defined.

Lemma getStore_id d id store : getStore d id = Some store -> Store.id store = id.
Proof.
  unfold getStore; intros H; apply first_filter_some in H as [_ H].
  apply Nat.eqb_eq in H; exact H.
Qed.

Lemma getStore_toggled d store b :
  getStore d (Store.id store) = Some store ->
  getStore (snd (updateStoreActive d (Store.id store) b)) (Store.id store) =
    Some (setStoreActive b store).
Proof.
  unfold getStore, updateStoreActive, set_stores; simpl; intros H.
  rewrite filter_map_comm
    by (intros x; destruct (Nat.eqb (Store.id x) (Store.id store)) eqn:E;
        simpl; rewrite ?E; reflexivity).
  rewrite first_map, H; simpl; rewrite Nat.eqb_refl; reflexivity.
Qed.

(** Deactivating a store (toggling an active one) shuts its QR grants: a
    token of that store that is still unexpired is refused with 404 "Store
    not available" and creates no customer session. *)
Theorem toggleStoreStatus_blocks_validation d sid store now token q
    (Hs : getStore d sid = Some store)
    (Hactive : Store.isActive store = true)
    (Hq : getQrSessionByToken d now token = Some q)
    (Hqs : QrSession.storeId q = sid) :
  exists r d',
    toggleStoreStatus d sid = (Json r, d') /\
    validateQr d' now token = (Status 404 "Store not available", d').
Proof.
  pose proof (getStore_id _ _ _ Hs) as Hid.
  unfold toggleStoreStatus; rewrite Hs, Hactive.
  pose proof (getStore_toggled d store false ltac:(rewrite Hid; exact Hs)) as Ht.
  destruct (updateStoreActive d (Store.id store) false) as [r d'] eqn:Hu.
  exists r, d'; split; [simpl negb; rewrite Hu; reflexivity|].
  simpl in Ht.
  assert (Hq' : getQrSessionByToken d' now token = Some q).
  { unfold updateStoreActive in Hu; injection Hu as _ <-; exact Hq. }
  unfold validateQr; rewrite Hq', Hqs, <- Hid, Ht; reflexivity.
Qed.

Lemma toggleStoreStatus_blocks_validation_witness :
  exists r d',
    toggleStoreStatus sample_db 3 = (Json r, d') /\
    validateQr d' 100 "tokA" = (Status 404 "Store not available", d').
Proof.
  apply (toggleStoreStatus_blocks_validation sample_db 3
    (Store.mk 3 "Main Street" None true) 100 "tokA" (QrSession.mk 10 3 "tokA" 5000)
    eq_refl eq_refl eq_refl eq_refl).
Defined.

(** With store ids unique, toggling a store's status twice gives back the
    database it started from. *)
Theorem toggleStoreStatus_twice d sid store
    (Hids : NoDup (map Store.id (stores d)))
    (Hs : getStore d sid = Some store) :
  snd (toggleStoreStatus (snd (toggleStoreStatus d sid)) sid) = d.
Proof.
  pose proof (getStore_id _ _ _ Hs) as Hid; subst sid.
  unfold toggleStoreStatus at 2; rewrite Hs.
  pose proof (getStore_toggled d store (negb (Store.isActive store)) Hs) as Ht.
  destruct (updateStoreActive d (Store.id store) (negb (Store.isActive store)))
    as [r d1] eqn:Hu; simpl in Ht |- *.
  unfold toggleStoreStatus; rewrite Ht; simpl.
  rewrite negb_involutive.
  unfold updateStoreActive in Hu; injection Hu as _ <-.
  unfold set_stores; simpl.
  assert (Hin : In store (stores d))
    by (unfold getStore in Hs; apply first_filter_some in Hs; tauto).
  rewrite map_map, (map_ext_in _ (fun x => x)), map_id.
  - destruct d; reflexivity.
  - intros x Hx.
    destruct (Nat.eqb (Store.id x) (Store.id store)) eqn:He.
    + apply Nat.eqb_eq in He.
      assert (x = store) by (eapply NoDup_map_same; eauto); subst x.
      simpl; rewrite Nat.eqb_refl.
      destruct store; reflexivity.
    + rewrite He; reflexivity.
Qed.

Lemma toggleStoreStatus_twice_witness :
  snd (toggleStoreStatus (snd (toggleStoreStatus sample_db 3)) 3) = sample_db.
Proof.
  apply (toggleStoreStatus_twice sample_db 3 (Store.mk 3 "Main Street" None true));
    [simpl; constructor; [simpl; intros [H|[]]; discriminate|];
     constructor; [simpl; tauto|constructor] | reflexivity].
Defined.

(** ** Bearer tokens and role gates *)

Lemma js_split_space_no_space t : no_space t = true -> js_split_space t = [t].
Proof.
  induction t as [|c t IH]; simpl; [reflexivity|].
  unfold no_space; simpl; intros H; apply andb_true_iff in H as [Hc Ht].
  apply negb_true_iff in Hc; rewrite Hc, IH by exact Ht; reflexivity.
Qed.

(** A route behind [authMiddleware] and a role gate: a header
    "Bearer <token>" (token without spaces) hands exactly that token to
    [jwt.verify]; a payload with the route's role passes, another role is
    refused 403 "Access denied", a token that does not verify is refused
    401 "Invalid token", and a header that is missing or does not start
    with "Bearer " is refused 401 "Unauthorized". *)
Theorem roleGate_bearer verify role token
    (Hspace : no_space token = true) :
  roleGate verify role (Some ("Bearer " ++ token)) =
    match verify token with
    | None => Status 401 "Invalid token"
    | Some user => if String.eqb (Jwt.role user) role then Json user
                   else Status 403 "Access denied"
    end /\
  roleGate verify role None = Status 401 "Unauthorized" /\
  (forall h, String.prefix "Bearer " h = false ->
     roleGate verify role (Some h) = Status 401 "Unauthorized").
Proof.
  split; [|split; [reflexivity|]].
  - unfold roleGate, authMiddleware.
    replace (String.prefix "Bearer " ("Bearer " ++ token)) with true
      by (simpl; destruct token; reflexivity).
    simpl; rewrite js_split_space_no_space by exact Hspace; simpl.
    destruct (verify token); reflexivity.
  - intros h Hh; unfold roleGate, authMiddleware; rewrite Hh; reflexivity.
Qed.

Lemma roleGate_bearer_witness :
  roleGate (fun t => if String.eqb t "tok" then
                       Some (Jwt.mk 2 "manager@shop.test" "store_manager" (Some 3) 0)
                     else None)
    "company_owner" (Some ("Bearer " ++ "tok")) = Status 403 "Access denied".
Proof.
  rewrite (proj1 (roleGate_bearer _ "company_owner" "tok" eq_refl)); reflexivity.
Defined.

Lemma js_split_space_cons s : exists p ps, js_split_space s = p :: ps.
Proof.
  destruct s as [|c s]; simpl; [eauto|].
  destruct (Ascii.eqb c " "%char); [eauto|].
  destruct (js_split_space s); eauto.
Qed.

(** [split(" ")] loses nothing: joining the pieces with " " gives back the
    header. *)
Theorem js_split_space_join s : String.concat " " (js_split_space s) = s.
Proof.
  induction s as [|c s IH]; simpl; [reflexivity|].
  destruct (js_split_space_cons s) as (p & ps & Hs); rewrite Hs in *.
  destruct (Ascii.eqb c " "%char) eqn:Hc.
  - apply Ascii.eqb_eq in Hc; subst c.
    change (String.concat " " ("" :: p :: ps)) with
      (" " ++ String.concat " " (p :: ps)).
    rewrite IH; reflexivity.
  - destruct ps as [|p' ps]; simpl in *; rewrite IH; reflexivity.
Qed.

(** ** Try-on bookkeeping and statistics *)

Lemma tryOn_success_writes gen d now sid cid key out v d'
    (Hok : tryOn gen d now (Some sid) (Some cid) key out = (Json v, d')) :
  exists s item url md,
    getCustomerSession d sid = Some s /\ getClothingItem d cid = Some item /\
    ClothingItem.storeId item = CustomerSession.storeId s /\
    d' = createUsageLog
           (incrementTryOnCount
              (createTryOnHistory d (CustomerSession.id s) (ClothingItem.id item) url)
              (ClothingItem.id item))
           (CustomerSession.storeId s) "try_on" md.
Proof.
  unfold tryOn in Hok.
  destruct (getCustomerSession d sid) as [s|] eqn:Hs; [|discriminate].
  destruct (Z.ltb (CustomerSession.expiresAt s) now); [discriminate|].
  destruct (negb (truthy (CustomerSession.photoUrl s))); [discriminate|].
  destruct (getClothingItem d cid) as [item|] eqn:Hi; [|discriminate].
  destruct (Nat.eqb (ClothingItem.storeId item) (CustomerSession.storeId s)) eqn:He;
    simpl in Hok; [|discriminate].
  apply Nat.eqb_eq in He.
  destruct (negb (truthy key)).
  - injection Hok as _ <-. do 4 eexists; repeat split; eauto.
  - match type of Hok with context [match ?g with _ => _ end] =>
      destruct g; [|discriminate] end.
    injection Hok as _ <-. do 4 eexists; repeat split; eauto.
Qed.

Lemma map_bump_absent (l : list ClothingItem.t) k :
  ~ In k (map ClothingItem.id l) ->
  map (fun i => if Nat.eqb (ClothingItem.id i) k then bumpTryOnCount i else i) l = l.
Proof.
  induction l as [|x l IH]; simpl; [reflexivity|]; intros Hn.
  destruct (Nat.eqb (ClothingItem.id x) k) eqn:He.
  - apply Nat.eqb_eq in He; tauto.
  - rewrite IH by tauto; reflexivity.
Qed.

Lemma sum_tryOnCount_bump (l : list ClothingItem.t) item sid :
  NoDup (map ClothingItem.id l) -> In item l ->
  ClothingItem.storeId item = sid ->
  sum_tryOnCount (filter (fun i => Nat.eqb (ClothingItem.storeId i) sid)
    (map (fun i => if Nat.eqb (ClothingItem.id i) (ClothingItem.id item)
                   then bumpTryOnCount i else i) l)) =
  S (sum_tryOnCount (filter (fun i => Nat.eqb (ClothingItem.storeId i) sid) l)).
Proof.
  induction l as [|x l IH]; simpl; [tauto|].
  intros Hnd Hin Hst; inversion Hnd as [|? ? Hnotin Hnd']; subst.
  destruct (Nat.eqb (ClothingItem.id x) (ClothingItem.id item)) eqn:He.
  - apply Nat.eqb_eq in He.
    assert (x = item).
    { destruct Hin as [->|Hin]; [reflexivity|].
      exfalso; apply Hnotin; rewrite He; apply in_map; exact Hin. }
    subst x. rewrite map_bump_absent by exact Hnotin.
    simpl; rewrite Nat.eqb_refl; simpl; reflexivity.
  - assert (Hin' : In item l)
      by (destruct Hin as [<-|Hin]; [rewrite Nat.eqb_refl in He; discriminate|exact Hin]).
    simpl. destruct (Nat.eqb (ClothingItem.storeId x) (ClothingItem.storeId item));
      simpl; rewrite IH by auto; lia.
Qed.

(** With item ids unique, every successful try-on (demo or generated)
    raises the try-on total of the session's store by exactly one, and the
    global count of AI calls (the "try_on" usage logs) by exactly one. *)
Theorem tryOn_success_counts gen d now sid cid key out v d' s
    (Hids : NoDup (map ClothingItem.id (clothingItems d)))
    (Hok : tryOn gen d now (Some sid) (Some cid) key out = (Json v, d'))
    (Hs : getCustomerSession d sid = Some s) :
  StoreStats.tryOnCount (getStoreStats d' (CustomerSession.storeId s)) =
    S (StoreStats.tryOnCount (getStoreStats d (CustomerSession.storeId s))) /\
  GlobalStats.totalApiCalls (getGlobalStats d') =
    S (GlobalStats.totalApiCalls (getGlobalStats d)).
Proof.
  destruct (tryOn_success_writes _ _ _ _ _ _ _ _ _ Hok)
    as (s' & item & url & md & Hs' & Hi & Hst & ->).
  rewrite Hs in Hs'; injection Hs' as <-.
  assert (Hin : In item (clothingItems d))
    by (unfold getClothingItem in Hi; apply first_filter_some in Hi; tauto).
  split.
  - unfold getStoreStats; simpl.
    apply sum_tryOnCount_bump; auto.
  - unfold getGlobalStats; simpl.
    rewrite filter_app, length_app; simpl; lia.
Qed.

Lemma tryOn_success_counts_witness :
  exists v d',
    tryOn (fun _ _ _ => None) sample_db 100 (Some 20) (Some 30) None "result-1.png" =
      (Json v, d') /\
    StoreStats.tryOnCount (getStoreStats d' 3) =
      S (StoreStats.tryOnCount (getStoreStats sample_db 3)).
Proof.
  do 2 eexists; split; [reflexivity|].
  exact (proj1 (tryOn_success_counts (fun _ _ _ => None) sample_db 100 20 30 None
    "result-1.png" _ _ (CustomerSession.mk 20 10 3 5000 (Some "/uploads/customers/p.jpg"))
    ltac:(simpl; constructor; [simpl; intros [E|[]]; discriminate|];
          constructor; [simpl; tauto|constructor])
    eq_refl eq_refl)).
Defined.

(** Every successful QR validation adds one customer session to the
    store's session count and to the global session total. *)
Theorem validateQr_success_counts d now token v d'
    (Hok : validateQr d now token = (Json v, d')) :
  StoreStats.sessionCount (getStoreStats d' (ValidateView.storeId v)) =
    S (StoreStats.sessionCount (getStoreStats d (ValidateView.storeId v))) /\
  GlobalStats.totalSessions (getGlobalStats d') =
    S (GlobalStats.totalSessions (getGlobalStats d)).
Proof.
  unfold validateQr in Hok.
  destruct (getQrSessionByToken d now token) as [q|]; [|discriminate].
  destruct (getStore d (QrSession.storeId q)) as [store|] eqn:Hs; [|discriminate].
  destruct (Store.isActive store); [|discriminate].
  simpl in Hok; injection Hok as <- <-.
  pose proof (getStore_id _ _ _ Hs) as Hid.
  unfold getStoreStats, getGlobalStats; simpl.
  rewrite filter_app, !length_app; simpl.
  rewrite Hid, Nat.eqb_refl; simpl; split; lia.
Qed.

Lemma validateQr_success_counts_witness :
  exists v d',
    validateQr sample_db 100 "tokA" = (Json v, d') /\
    GlobalStats.totalSessions (getGlobalStats d') =
      S (GlobalStats.totalSessions (getGlobalStats sample_db)).
Proof.
  do 2 eexists; split; [reflexivity|].
  exact (proj2 (validateQr_success_counts sample_db 100 "tokA" _ _ eq_refl)).
Defined.

(** ** Generated try-ons *)

(** With a Gemini key configured, the try-on asks the generator for the
    session photo dressed in the item's image, both read relative to the
    working directory, and writes to [uploads/results].  A failed
    generation is answered 500 and writes nothing; a successful one answers
    the public URL of the result and records it in the history. *)
Theorem tryOn_generated gen d now sid cid key out s item photo
    (Hs : getCustomerSession d sid = Some s)
    (Hlive : (now <= CustomerSession.expiresAt s)%Z)
    (Hphoto : CustomerSession.photoUrl s = Some photo)
    (Hne : photo <> "")
    (Hi : getClothingItem d cid = Some item)
    (Hsame : ClothingItem.storeId item = CustomerSession.storeId s)
    (Hkey : truthy key = true) :
  (gen ("." ++ photo) ("." ++ ClothingItem.imageUrl item)
       ("./uploads/results/" ++ out) = None ->
   tryOn gen d now (Some sid) (Some cid) key out =
     (Status 500 "Failed to generate try-on image", d)) /\
  (forall r, gen ("." ++ photo) ("." ++ ClothingItem.imageUrl item)
                 ("./uploads/results/" ++ out) = Some r ->
   exists d',
     tryOn gen d now (Some sid) (Some cid) key out =
       (Json (TryOnView.mk ("/uploads/results/" ++ out) None), d') /\
     exists hid, tryOnHistory d' = (tryOnHistory d ++
       [TryOnHistory.mk hid (CustomerSession.id s) (ClothingItem.id item)
          ("/uploads/results/" ++ out)])%list).
Proof.
  assert (Hnx : Z.ltb (CustomerSession.expiresAt s) now = false)
    by (apply Z.ltb_ge; lia).
  assert (Hp : negb (truthy (CustomerSession.photoUrl s)) = false)
    by (rewrite Hphoto; simpl; apply String.eqb_neq in Hne; rewrite Hne; reflexivity).
  unfold tryOn; rewrite Hs, Hnx, Hp, Hi, Hsame, Nat.eqb_refl, Hkey, Hphoto.
  cbv beta iota zeta delta [negb].
  split.
  - intros Hg; rewrite Hg; reflexivity.
  - intros r Hg; rewrite Hg.
    eexists; split; [reflexivity|].
    eexists; reflexivity.
Qed.

Lemma tryOn_generated_witness :
  tryOn (fun _ _ _ => None) sample_db 100 (Some 20) (Some 30) (Some "key")
    "result-1.png" = (Status 500 "Failed to generate try-on image", sample_db) /\
  exists d',
    tryOn (fun _ _ _ => Some "ok") sample_db 100 (Some 20) (Some 30) (Some "key")
      "result-1.png" =
      (Json (TryOnView.mk "/uploads/results/result-1.png" None), d').
Proof.
  split.
  - apply (proj1 (tryOn_generated (fun _ _ _ => None) sample_db 100 20 30 (Some "key")
      "result-1.png" (CustomerSession.mk 20 10 3 5000 (Some "/uploads/customers/p.jpg"))
      (ClothingItem.mk 30 3 "Shirt" "shirts" (Some "111") "/uploads/clothing/shirt.png" true 0)
      "/uploads/customers/p.jpg"
      eq_refl ltac:(simpl; lia) eq_refl ltac:(discriminate) eq_refl eq_refl eq_refl)).
    reflexivity.
  - destruct (proj2 (tryOn_generated (fun _ _ _ => Some "ok") sample_db 100 20 30
      (Some "key") "result-1.png"
      (CustomerSession.mk 20 10 3 5000 (Some "/uploads/customers/p.jpg"))
      (ClothingItem.mk 30 3 "Shirt" "shirts" (Some "111") "/uploads/clothing/shirt.png" true 0)
      "/uploads/customers/p.jpg"
      eq_refl ltac:(simpl; lia) eq_refl ltac:(discriminate) eq_refl eq_refl eq_refl)
      "ok" eq_refl) as (d' & Hr & _).
    exists d'; exact Hr.
Defined.

(** ** Creating and editing items *)

(** A manager's new item with a name and a category of the enum belongs
    to the manager's store whatever the form holds, keeps the given name and
    category, is available exactly when [isAvailable] is the string "true"
    or the JSON boolean true, and heads both the manager's listing and
    (when available) the customer listing of that store, newest first. *)
Theorem createItem_listed tdef d sid n c barcode isAvailable file
    (Hc : is_category c = true) :
  exists item d',
    createItem tdef d (Some sid) (Some n) (Some c) barcode isAvailable file =
      (Json item, d') /\
    ClothingItem.storeId item = sid /\
    ClothingItem.name item = n /\
    ClothingItem.category item = c /\
    ClothingItem.isAvailable item = parseAvailable isAvailable /\
    managerItems d' (Some sid) None = Json (item :: storeItems d sid) /\
    customerClothes d' (Some sid) None =
      Json (if parseAvailable isAvailable
            then item :: filter (fun i => ClothingItem.isAvailable i) (storeItems d sid)
            else filter (fun i => ClothingItem.isAvailable i) (storeItems d sid)).
Proof.
  unfold createItem, createClothingItem; rewrite Hc; simpl.
  do 2 eexists; split; [reflexivity|].
  do 4 (split; [reflexivity|]).
  unfold managerItems, customerClothes, getClothingItemsByStore, storeItems; simpl.
  rewrite filter_app; simpl; rewrite Nat.eqb_refl, rev_app_distr; simpl.
  split; [reflexivity|].
  destruct (parseAvailable isAvailable); reflexivity.
Qed.

Lemma createItem_listed_witness :
  exists item d',
    createItem 0 sample_db (Some 3) (Some "Tee") (Some "shirts") None
      (Some (FBool true)) (Some "tee.png") = (Json item, d') /\
    ClothingItem.isAvailable item = true.
Proof.
  destruct (createItem_listed 0 sample_db 3 "Tee" "shirts" None (Some (FBool true))
    (Some "tee.png") eq_refl) as (item & d' & H1 & _ & _ & _ & H5 & _).
  exists item, d'; split; [exact H1|exact H5].
Defined.



(** Whatever the form holds, editing an item or toggling its availability
    never changes the id, the store or the try-on count of any item row,
    and leaves the other tables alone. *)
Theorem item_edits_keep_keys d sid id name category barcode isAvailable file :
  map item_key (clothingItems
    (snd (updateItem d sid id name category barcode isAvailable file))) =
    map item_key (clothingItems d) /\
  map item_key (clothingItems (snd (toggleAvailability d sid id))) =
    map item_key (clothingItems d) /\
  stores (snd (updateItem d sid id name category barcode isAvailable file)) = stores d /\
  usageLogs (snd (toggleAvailability d sid id)) = usageLogs d.
Proof.
  unfold updateItem, toggleAvailability.
  destruct (ownItem d sid id) as [item|]; simpl; [|repeat split].
  destruct (truthy category && negb (category_filter_ok category)); simpl.
  { rewrite map_map; repeat split; apply map_ext; intros i;
      destruct (Nat.eqb (ClothingItem.id i) (ClothingItem.id item)); reflexivity. }
  rewrite !map_map.
  repeat split; apply map_ext; intros i;
    destruct (Nat.eqb (ClothingItem.id i) (ClothingItem.id item)); reflexivity.
Qed.
